(** * Webhook registry of shopify-api-js ([src/webhooks/registry.ts])

    A shallow embedding of [WebhooksRegistry] (registration flow, dispatch
    flow, path lookup) together with the platform primitives it calls:
    [crypto.createHmac('sha256', key).update(data).digest('base64')] and
    [Buffer.prototype.toString('utf-8')].

    Conventions of the model.
    - A [Buffer] is a [list byte].
    - An ECMAScript string is the [string] of its UTF-8 encoding, one
      character of the model per byte.  Equality, emptiness, concatenation
      and the replacement of ["/"] are the same on both sides of this
      encoding; strings holding unpaired surrogates are outside the model.
    - The registry object's mutable field, the remote GraphQL endpoint and
      the observable calls (queries, HMAC computations, comparisons, handler
      invocations) live in an explicit [World] threaded by a small monad
      with exceptions. *)

From Stdlib Require Import ZArith List String Ascii Bool Lia.
From Stdlib.Strings Require Import Byte.
Import ListNotations.

(* ================================================================== *)
(** ** Node's [crypto]: SHA-256, HMAC, base64                          *)
(* ================================================================== *)

Module Crypto.
Local Open Scope Z_scope.

Definition byteZ (b : byte) : Z := Z.of_N (Byte.to_N b).
Definition Zbyte (z : Z) : byte :=
  byte_of_ascii (ascii_of_N (Z.to_N (z mod 256))).

(** 32-bit words are integers in [0, 2^32); every operation wraps. *)
Definition wrap32 (x : Z) : Z := x mod 2 ^ 32.
Definition add32 (x y : Z) : Z := wrap32 (x + y).
Definition rotr (n x : Z) : Z :=
  Z.lor (Z.shiftr x n) (wrap32 (Z.shiftl x (32 - n))).
Definition not32 (x : Z) : Z := Z.lxor x (2 ^ 32 - 1).

Definition Ch (x y z : Z) : Z := Z.lxor (Z.land x y) (Z.land (not32 x) z).
Definition Maj (x y z : Z) : Z :=
  Z.lxor (Z.lxor (Z.land x y) (Z.land x z)) (Z.land y z).
Definition bigSigma0 (x : Z) : Z :=
  Z.lxor (Z.lxor (rotr 2 x) (rotr 13 x)) (rotr 22 x).
Definition bigSigma1 (x : Z) : Z :=
  Z.lxor (Z.lxor (rotr 6 x) (rotr 11 x)) (rotr 25 x).
Definition smallSigma0 (x : Z) : Z :=
  Z.lxor (Z.lxor (rotr 7 x) (rotr 18 x)) (Z.shiftr x 3).
Definition smallSigma1 (x : Z) : Z :=
  Z.lxor (Z.lxor (rotr 17 x) (rotr 19 x)) (Z.shiftr x 10).

(** The round constants are the first 32 bits of the fractional parts of
    the cube roots of the first 64 primes, the initial hash value those
    of the square roots of the first 8 (FIPS 180-4, 4.2.2 and 5.3.3). *)
Definition primes64 : list Z :=
  [2; 3; 5; 7; 11; 13; 17; 19; 23; 29; 31; 37; 41; 43; 47; 53;
   59; 61; 67; 71; 73; 79; 83; 89; 97; 101; 103; 107; 109; 113; 127; 131;
   137; 139; 149; 151; 157; 163; 167; 173; 179; 181; 191; 193; 197; 199;
   211; 223; 227; 229; 233; 239; 241; 251; 257; 263; 269; 271; 277; 281;
   283; 293; 307; 311].

Fixpoint cbrt_bits (bit : nat) (n r : Z) : Z :=
  match bit with
  | O => r
  | S b =>
      let c := r + 2 ^ Z.of_nat b in
      cbrt_bits b n (if c * c * c <=? n then c else r)
  end.

Definition cbrt_floor (n : Z) : Z := cbrt_bits 40 n 0.

Definition K256 : list Z :=
  Eval vm_compute in map (fun p => wrap32 (cbrt_floor (p * 2 ^ 96))) primes64.

Definition H256 : list Z :=
  Eval vm_compute in
    map (fun p => wrap32 (Z.sqrt (p * 2 ^ 64))) (firstn 8 primes64).

(** Padding (5.1.1): a one bit, zeros, and the bit length on 64 bits. *)
Fixpoint be_bytes (count : nat) (x : Z) : list Z :=
  match count with
  | O => []
  | S c => (Z.shiftr x (8 * Z.of_nat c)) mod 256 :: be_bytes c x
  end.

Definition pad (msg : list Z) : list Z :=
  let len := Z.of_nat (List.length msg) in
  msg ++ [128] ++ repeat 0 (Z.to_nat ((55 - len) mod 64)) ++ be_bytes 8 (8 * len).

Fixpoint chunks (fuel size : nat) (l : list Z) : list (list Z) :=
  match fuel with
  | O => []
  | S f =>
      match l with
      | [] => []
      | _ => firstn size l :: chunks f size (skipn size l)
      end
  end.

Definition be_word (bs : list Z) : Z :=
  fold_left (fun acc b => acc * 256 + b) bs 0.

(** Message schedule (6.2.2, step 1), newest word first. *)
Fixpoint schedule (n : nat) (rw : list Z) : list Z :=
  match n with
  | O => rw
  | S n' =>
      let w :=
        add32 (add32 (smallSigma1 (nth 1 rw 0)) (nth 6 rw 0))
              (add32 (smallSigma0 (nth 14 rw 0)) (nth 15 rw 0)) in
      schedule n' (w :: rw)
  end.

Definition Regs : Type := (Z * Z * Z * Z * Z * Z * Z * Z)%type.

Definition round (s : Regs) (kw : Z * Z) : Regs :=
  let '(a, b, c, d, e, f, g, h) := s in
  let t1 :=
    add32 (add32 (add32 h (bigSigma1 e)) (add32 (Ch e f g) (fst kw))) (snd kw) in
  let t2 := add32 (bigSigma0 a) (Maj a b c) in
  (add32 t1 t2, a, b, c, add32 d t1, e, f, g).

Definition compress (s : Regs) (block : list Z) : Regs :=
  let w16 := map be_word (chunks 16 4 block) in
  let w := rev (schedule 48 (rev w16)) in
  let '(a, b, c, d, e, f, g, h) := fold_left round (combine K256 w) s in
  let '(a0, b0, c0, d0, e0, f0, g0, h0) := s in
  (add32 a0 a, add32 b0 b, add32 c0 c, add32 d0 d,
   add32 e0 e, add32 f0 f, add32 g0 g, add32 h0 h).

Definition initial : Regs :=
  (nth 0 H256 0, nth 1 H256 0, nth 2 H256 0, nth 3 H256 0,
   nth 4 H256 0, nth 5 H256 0, nth 6 H256 0, nth 7 H256 0).

Definition sha256Z (msg : list Z) : list Z :=
  let p := pad msg in
  let '(a, b, c, d, e, f, g, h) :=
    fold_left compress (chunks (List.length p) 64 p) initial in
  List.concat (map (be_bytes 4) [a; b; c; d; e; f; g; h]).

(** HMAC (RFC 2104) with block size 64. *)
Definition hmacZ (key msg : list Z) : list Z :=
  let k0 := if (64 <? Z.of_nat (List.length key)) then sha256Z key else key in
  let k := k0 ++ repeat 0 (64 - List.length k0) in
  let ipad := map (fun b => Z.lxor b 54) k in
  let opad := map (fun b => Z.lxor b 92) k in
  sha256Z (opad ++ sha256Z (ipad ++ msg)).

Definition sha256 (msg : list byte) : list byte :=
  map Zbyte (sha256Z (map byteZ msg)).

Definition hmac_sha256 (key msg : list byte) : list byte :=
  map Zbyte (hmacZ (map byteZ key) (map byteZ msg)).

(** Base64 (RFC 4648, standard alphabet, padded). *)
Definition alphabet : string :=
  "ABCDEFGHIJKLMNOPQRSTUVWXYZabcdefghijklmnopqrstuvwxyz0123456789+/".

Definition sextet (i : Z) : ascii :=
  match String.get (Z.to_nat (i mod 64)) alphabet with
  | Some c => c
  | None => "="%char
  end.

Fixpoint base64Z (l : list Z) : string :=
  match l with
  | [] => EmptyString
  | [a] =>
      String (sextet (a / 4))
        (String (sextet (a mod 4 * 16)) (String "=" (String "=" EmptyString)))
  | [a; b] =>
      String (sextet (a / 4))
        (String (sextet (a mod 4 * 16 + b / 16))
           (String (sextet (b mod 16 * 4)) (String "=" EmptyString)))
  | a :: b :: c :: rest =>
      String (sextet (a / 4))
        (String (sextet (a mod 4 * 16 + b / 16))
           (String (sextet (b mod 16 * 4 + c / 64))
              (String (sextet (c mod 64)) (base64Z rest))))
  end.

Definition base64 (l : list byte) : string := base64Z (map byteZ l).

Definition hex (l : list byte) : string :=
  let digit (i : Z) : ascii :=
    match String.get (Z.to_nat i) "0123456789abcdef" with
    | Some c => c
    | None => "?"%char
    end in
  fold_right
    (fun b s => String (digit (byteZ b / 16)) (String (digit (byteZ b mod 16)) s))
    EmptyString l.

End Crypto.

(* ================================================================== *)
(** ** [Buffer.prototype.toString('utf-8')] and UTF-8 output            *)
(* ================================================================== *)

Definition Buffer : Type := list byte.

Module Utf8.
Local Open Scope Z_scope.

(** Unicode scalar values: code points outside the surrogate range. *)
Definition scalar (c : Z) : Prop :=
  (0 <= c < 55296) \/ (57344 <= c <= 1114111).

Definition continuation (b : Z) : bool := (128 <=? b) && (b <=? 191).

Definition REPLACEMENT : Z := 65533.

(** Decoding replaces every maximal ill-formed subpart by U+FFFD and
    resumes at the byte that ended it, as Node's decoder does. *)
Fixpoint decode (l : list Z) : list Z :=
  match l with
  | [] => []
  | b0 :: r0 =>
      if b0 <? 128 then b0 :: decode r0
      else if (194 <=? b0) && (b0 <=? 223) then
        match r0 with
        | b1 :: r1 =>
            if continuation b1
            then (b0 - 192) * 64 + (b1 - 128) :: decode r1
            else REPLACEMENT :: decode r0
        | [] => [REPLACEMENT]
        end
      else if (224 <=? b0) && (b0 <=? 239) then
        let lo := if b0 =? 224 then 160 else 128 in
        let hi := if b0 =? 237 then 159 else 191 in
        match r0 with
        | b1 :: r1 =>
            if (lo <=? b1) && (b1 <=? hi) then
              match r1 with
              | b2 :: r2 =>
                  if continuation b2
                  then (b0 - 224) * 4096 + (b1 - 128) * 64 + (b2 - 128)
                       :: decode r2
                  else REPLACEMENT :: decode r1
              | [] => [REPLACEMENT]
              end
            else REPLACEMENT :: decode r0
        | [] => [REPLACEMENT]
        end
      else if (240 <=? b0) && (b0 <=? 244) then
        let lo := if b0 =? 240 then 144 else 128 in
        let hi := if b0 =? 244 then 143 else 191 in
        match r0 with
        | b1 :: r1 =>
            if (lo <=? b1) && (b1 <=? hi) then
              match r1 with
              | b2 :: r2 =>
                  if continuation b2 then
                    match r2 with
                    | b3 :: r3 =>
                        if continuation b3
                        then (b0 - 240) * 262144 + (b1 - 128) * 4096
                             + (b2 - 128) * 64 + (b3 - 128) :: decode r3
                        else REPLACEMENT :: decode r2
                    | [] => [REPLACEMENT]
                    end
                  else REPLACEMENT :: decode r1
              | [] => [REPLACEMENT]
              end
            else REPLACEMENT :: decode r0
        | [] => [REPLACEMENT]
        end
      else REPLACEMENT :: decode r0
  end.

Definition encode1 (c : Z) : list Z :=
  if c <? 128 then [c]
  else if c <? 2048 then [192 + c / 64; 128 + c mod 64]
  else if c <? 65536 then
    [224 + c / 4096; 128 + (c / 64) mod 64; 128 + c mod 64]
  else
    [240 + c / 262144; 128 + (c / 4096) mod 64; 128 + (c / 64) mod 64;
     128 + c mod 64].

Definition encode (cs : list Z) : list Z := flat_map encode1 cs.

(** A buffer is well-formed UTF-8 when it is the encoding of a sequence of
    scalar values. *)
Definition wellFormed (b : Buffer) : Prop :=
  exists cs, Forall scalar cs /\ map Crypto.byteZ b = encode cs.

End Utf8.

(** [buf.toString('utf-8')]: the string decoded from the buffer; in the
    model, the UTF-8 encoding of that string. *)
Definition toString_utf8 (buf : Buffer) : string :=
  string_of_list_byte
    (map Crypto.Zbyte (Utf8.encode (Utf8.decode (map Crypto.byteZ buf)))).

(** The bytes a string contributes under the ['utf8'] encoding. *)
Definition utf8_bytes (s : string) : list byte := list_byte_of_string s.

(* ================================================================== *)
(** ** Strings and dynamic values                                      *)
(* ================================================================== *)

Local Open Scope string_scope.

Definition dquote : string := String (ascii_of_nat 34) EmptyString.
Definition nl : string := String (ascii_of_nat 10) EmptyString.

(** Truthiness of a string, and of an optional one ([undefined] is falsy). *)
Definition truthyString (s : string) : bool :=
  match s with
  | EmptyString => false
  | String _ _ => true
  end.

Definition truthy (o : option string) : bool :=
  match o with
  | Some s => truthyString s
  | None => false
  end.

(** [o as string] on a variable already tested truthy. *)
Definition asString (o : option string) : string :=
  match o with
  | Some s => s
  | None => EmptyString
  end.

(** [s.replace(/\//g, '_')]. *)
Fixpoint replaceSlashes (s : string) : string :=
  match s with
  | EmptyString => EmptyString
  | String c r =>
      String (if Ascii.eqb c "/" then "_"%char else c) (replaceSlashes r)
  end.

(** The case mappings on ASCII text, used where a concrete run of the
    registry is evaluated; the definitions below are parametric in
    [String.prototype.toUpperCase] and [toLowerCase]. *)
Definition asciiUpper (c : ascii) : ascii :=
  let n := nat_of_ascii c in
  if (97 <=? n)%nat && (n <=? 122)%nat then ascii_of_nat (n - 32) else c.

Definition asciiLower (c : ascii) : ascii :=
  let n := nat_of_ascii c in
  if (65 <=? n)%nat && (n <=? 90)%nat then ascii_of_nat (n + 32) else c.

Fixpoint mapString (f : ascii -> ascii) (s : string) : string :=
  match s with
  | EmptyString => EmptyString
  | String c r => String (f c) (mapString f r)
  end.

Definition asciiToUpperCase : string -> string := mapString asciiUpper.
Definition asciiToLowerCase : string -> string := mapString asciiLower.

#[local] Set Warnings "-register-all".

(** Parsed response bodies ([unknown] / [any] in the source).  An object
    lists its own properties, each name once.  Numbers are kept as
    integers: only their truthiness is ever consulted. *)
Inductive JSON : Type :=
  | JUndefined
  | JNull
  | JBool (b : bool)
  | JNumber (n : Z)
  | JString (s : string)
  | JArray (items : list JSON)
  | JObject (fields : list (string * JSON)).

Definition toBoolean (v : JSON) : bool :=
  match v with
  | JUndefined | JNull => false
  | JBool b => b
  | JNumber n => negb (n =? 0)%Z
  | JString s => truthyString s
  | JArray _ | JObject _ => true
  end.

Inductive Error : Type :=
  | InvalidWebhookError (message : string)
  | TypeError
  | RequestError (reason : string).

Inductive Completion (A : Type) : Type :=
  | Normal (a : A)
  | Abrupt (e : Error).
Arguments Normal {A} a.
Arguments Abrupt {A} e.

Fixpoint lookupField (k : string) (fields : list (string * JSON)) : JSON :=
  match fields with
  | [] => JUndefined
  | (k', v) :: rest => if k' =? k then v else lookupField k rest
  end.

(** [v.k] for a property name [k] that no built-in prototype defines (all
    the names read by the registry are such): a read on [undefined] or
    [null] raises a TypeError, a read on any other non-object yields
    [undefined]. *)
Definition getProp (v : JSON) (k : string) : Completion JSON :=
  match v with
  | JUndefined | JNull => Abrupt TypeError
  | JObject fields => Normal (lookupField k fields)
  | _ => Normal JUndefined
  end.

(** [a && b]: [b] is evaluated only when [a] is truthy. *)
Definition andAlso (a b : Completion JSON) : Completion JSON :=
  match a with
  | Abrupt e => Abrupt e
  | Normal v => if toBoolean v then b else Normal v
  end.

Definition getPath (v : JSON) (ks : list string) : Completion JSON :=
  fold_left
    (fun acc k => match acc with Normal x => getProp x k | Abrupt e => Abrupt e end)
    ks (Normal v).

Definition BooleanOf (c : Completion JSON) : Completion bool :=
  match c with
  | Normal v => Normal (toBoolean v)
  | Abrupt e => Abrupt e
  end.

(* ================================================================== *)
(** ** Data model of [registry.ts]                                     *)
(* ================================================================== *)

Inductive DeliveryMethod : Type := Http | EventBridge.

Inductive StatusCode : Type := Ok | Forbidden.

(** [Record<string, string>]: the own properties in enumeration order. *)
Definition Headers : Type := list (string * string).

Record ProcessOptions : Type := mkProcessOptions {
  headers : Headers;
  body : Buffer
}.

(** [ProcessReturn]; its [headers] field is [returnHeaders] here. *)
Record ProcessReturn : Type := mkProcessReturn {
  statusCode : StatusCode;
  returnHeaders : Headers
}.

Record RegisterReturn : Type := mkRegisterReturn {
  success : bool;
  result : JSON
}.

(** [WebhookCheckResponse], the declared shape of the existence check's
    body. *)
Record WebhookCheckNode : Type := mkNode {
  id : string;
  callbackUrl : string
}.

Record WebhookCheckResponseNode : Type := mkEdge { node : WebhookCheckNode }.

Record WebhookSubscriptions : Type := mkSubscriptions {
  edges : list WebhookCheckResponseNode
}.

Record WebhookCheckData : Type := mkData {
  webhookSubscriptions : WebhookSubscriptions
}.

Record WebhookCheckResponse : Type := mkCheckResponse {
  data : WebhookCheckData
}.

(** [ShopifyHeader] of [src/types.ts]: the three header names read here. *)
Record ShopifyHeaderNames : Type := mkShopifyHeader {
  Hmac : string;
  Topic : string;
  Domain : string
}.

(** The process-wide [Context]. *)
Record ContextT : Type := mkContext {
  HOST_NAME : string;
  API_SECRET_KEY : string
}.

(* ------------------------------------------------------------------ *)
(** *** Pure helpers                                                    *)
(* ------------------------------------------------------------------ *)

Definition isSuccess (result : JSON) (deliveryMethod : DeliveryMethod)
    (webhookId : option string) : Completion bool :=
  match deliveryMethod with
  | Http =>
      if truthy webhookId then
        BooleanOf
          (andAlso (getPath result ["data"])
             (andAlso (getPath result ["data"; "webhookSubscriptionUpdate"])
                (getPath result
                   ["data"; "webhookSubscriptionUpdate"; "webhookSubscription"])))
      else
        BooleanOf
          (andAlso (getPath result ["data"])
             (andAlso (getPath result ["data"; "webhookSubscriptionCreate"])
                (getPath result
                   ["data"; "webhookSubscriptionCreate"; "webhookSubscription"])))
  | EventBridge =>
      if truthy webhookId then
        BooleanOf
          (andAlso (getPath result ["data"])
             (andAlso
                (getPath result ["data"; "eventBridgeWebhookSubscriptionUpdate"])
                (getPath result
                   ["data"; "eventBridgeWebhookSubscriptionUpdate";
                    "webhookSubscription"])))
      else
        BooleanOf
          (andAlso (getPath result ["data"])
             (andAlso
                (getPath result ["data"; "eventBridgeWebhookSubscriptionCreate"])
                (getPath result
                   ["data"; "eventBridgeWebhookSubscriptionCreate";
                    "webhookSubscription"])))
  end.

Definition buildCheckQuery (topic : string) : string :=
  "{" ++ nl ++
  "    webhookSubscriptions(first: 1, topics: " ++ topic ++ ") {" ++ nl ++
  "      edges {" ++ nl ++
  "        node {" ++ nl ++
  "          id" ++ nl ++
  "          callbackUrl" ++ nl ++
  "        }" ++ nl ++
  "      }" ++ nl ++
  "    }" ++ nl ++
  "  }".

Definition buildQuery (topic address : string)
    (deliveryMethod : DeliveryMethod) (webhookId : option string) : string :=
  let identifier :=
    if truthy webhookId
    then "id: " ++ dquote ++ asString webhookId ++ dquote
    else "topic: " ++ topic in
  let '(mutationName, webhookSubscriptionArgs) :=
    match deliveryMethod with
    | Http =>
        (if truthy webhookId
         then "webhookSubscriptionUpdate" else "webhookSubscriptionCreate",
         "{callbackUrl: " ++ dquote ++ address ++ dquote ++ "}")
    | EventBridge =>
        (if truthy webhookId
         then "eventBridgeWebhookSubscriptionUpdate"
         else "eventBridgeWebhookSubscriptionCreate",
         "{arn: " ++ dquote ++ address ++ dquote ++ "}")
    end in
  nl ++
  "    mutation webhookSubscription {" ++ nl ++
  "      " ++ mutationName ++ "(" ++ identifier ++ ", webhookSubscription: "
           ++ webhookSubscriptionArgs ++ ") {" ++ nl ++
  "        userErrors {" ++ nl ++
  "          field" ++ nl ++
  "          message" ++ nl ++
  "        }" ++ nl ++
  "        webhookSubscription {" ++ nl ++
  "          id" ++ nl ++
  "        }" ++ nl ++
  "      }" ++ nl ++
  "    }" ++ nl ++
  "  ".

(** The cast [checkResult.body as WebhookCheckResponse] is unchecked in the
    source.  The model gives the typed view of a body that has the declared
    shape, every edge included, and agrees with the source on all such
    bodies.  Bodies outside the declared type are outside the model: there
    the source reads [edges[0]] only and checks no type, so it may go on
    with ill-typed values, while the model's [register] ends with a
    TypeError. *)
Definition asEdge (v : JSON) : option WebhookCheckResponseNode :=
  match v with
  | JObject fs =>
      match lookupField "node" fs with
      | JObject nf =>
          match lookupField "id" nf, lookupField "callbackUrl" nf with
          | JString i, JString c => Some (mkEdge (mkNode i c))
          | _, _ => None
          end
      | _ => None
      end
  | _ => None
  end.

Fixpoint asEdges (l : list JSON) : option (list WebhookCheckResponseNode) :=
  match l with
  | [] => Some []
  | v :: rest =>
      match asEdge v, asEdges rest with
      | Some e, Some es => Some (e :: es)
      | _, _ => None
      end
  end.

Definition asWebhookCheckResponse (v : JSON) : option WebhookCheckResponse :=
  match v with
  | JObject fs =>
      match lookupField "data" fs with
      | JObject d =>
          match lookupField "webhookSubscriptions" d with
          | JObject w =>
              match lookupField "edges" w with
              | JArray l =>
                  option_map
                    (fun es => mkCheckResponse (mkData (mkSubscriptions es)))
                    (asEdges l)
              | _ => None
              end
          | _ => None
          end
      | _ => None
      end
  | _ => None
  end.

(* ================================================================== *)
(** ** The registry object                                             *)
(* ================================================================== *)

Section Registry.

(** Handlers are caller-supplied callbacks; the registry only stores and
    invokes them. *)
Variable Handler : Type.

(** The remote GraphQL endpoint reached through [GraphqlClient]: a query
    sent for a shop with an access token either resolves to a parsed body
    or is rejected, and may change the endpoint. *)
Variable Network : Type.
Variable client_query :
  string -> string -> string -> Network -> (string + JSON) * Network.

(** [String.prototype.toUpperCase] and [toLowerCase]. *)
Variable toUpperCase : string -> string.
Variable toLowerCase : string -> string.

Variable ShopifyHeader : ShopifyHeaderNames.
Variable Context : ContextT.

Record RegisterOptions : Type := mkRegisterOptions {
  topic : string;
  path : string;
  shop : string;
  accessToken : string;
  apiVersion : string;
  deliveryMethod : option DeliveryMethod;
  webhookHandler : Handler
}.

(** [WebhookRegistryEntry]: the fields [path], [topic] and
    [webhookHandler], prefixed to keep them apart from the options'. *)
Record WebhookRegistryEntry : Type := mkEntry {
  entry_path : string;
  entry_topic : string;
  entry_webhookHandler : Handler
}.

(** Calls that leave the registry, in the order they are made. *)
Inductive Event : Type :=
  | QuerySent (shop accessToken data : string)
  | HmacComputed (key data : string)
  | Compared (a b : string)
  | HandlerInvoked (h : Handler) (topic domain : string) (body : Buffer).

Record World : Type := mkWorld {
  webhookRegistry : list WebhookRegistryEntry;
  network : Network;
  trace : list Event
}.

(** *** A state monad with exceptions *)

Definition M (A : Type) : Type := World -> Completion A * World.

Definition ret {A} (a : A) : M A := fun w => (Normal a, w).

Definition throw {A} (e : Error) : M A := fun w => (Abrupt e, w).

Definition bind {A B} (m : M A) (k : A -> M B) : M B :=
  fun w =>
    match m w with
    | (Normal a, w') => k a w'
    | (Abrupt e, w') => (Abrupt e, w')
    end.

Definition lift {A} (c : Completion A) : M A := fun w => (c, w).

Notation "x <- m ;; k" := (bind m (fun x => k))
  (at level 61, m at next level, right associativity).
Notation "m ;;; k" := (bind m (fun _ => k))
  (at level 61, right associativity).

Definition emit (e : Event) : M unit :=
  fun w =>
    (Normal tt,
     mkWorld (webhookRegistry w) (network w) (trace w ++ [e])%list).

Definition getRegistry : M (list WebhookRegistryEntry) :=
  fun w => (Normal (webhookRegistry w), w).

Definition setRegistry (r : list WebhookRegistryEntry) : M unit :=
  fun w => (Normal tt, mkWorld r (network w) (trace w)).

(** [await client.query({data})] on a client built for [shop] and
    [accessToken]; a rejection propagates as an exception. *)
Definition query (shop accessToken data : string) : M JSON :=
  fun w =>
    let w1 :=
      mkWorld (webhookRegistry w) (network w)
        (trace w ++ [QuerySent shop accessToken data])%list in
    match client_query shop accessToken data (network w) with
    | (inr body, n') => (Normal body, mkWorld (webhookRegistry w1) n' (trace w1))
    | (inl reason, n') =>
        (Abrupt (RequestError reason), mkWorld (webhookRegistry w1) n' (trace w1))
    end.

(** [createHmac('sha256', key).update(data, 'utf8').digest('base64')]. *)
Definition createHmacDigest (key data : string) : M string :=
  emit (HmacComputed key data) ;;;
  ret (Crypto.base64 (Crypto.hmac_sha256 (utf8_bytes key) (utf8_bytes data))).

(** Modelled from the spec: [ShopifyUtilities.safeCompare] of [src/utils],
    which is not among the sources.  Section 4.1 makes it the comparison of
    the computed signature with the provided one, returning a boolean: true
    exactly when the two strings are equal.  Its running time is not part
    of the model. *)
Definition safeCompare (a b : string) : M bool :=
  emit (Compared a b) ;;; ret (a =? b).

Definition invoke (h : Handler) (topic domain : string) (body : Buffer)
  : M unit :=
  emit (HandlerInvoked h topic domain body).

(** *** [register] *)

Definition register (options : RegisterOptions) : M RegisterReturn :=
  let deliveryMethod :=
    match deliveryMethod options with Some d => d | None => Http end in
  let address := "https://" ++ HOST_NAME Context ++ path options in
  checkResult <- query (shop options) (accessToken options)
                   (buildCheckQuery (topic options)) ;;
  checkBody <- lift (match asWebhookCheckResponse checkResult with
                     | Some b => Normal b
                     | None => Abrupt TypeError
                     end) ;;
  let '(webhookId, mustRegister) :=
    match edges (webhookSubscriptions (data checkBody)) with
    | e0 :: _ =>
        (Some (id (node e0)), negb (callbackUrl (node e0) =? address))
    | [] => (None, true)
    end in
  sb <- (if mustRegister then
           result <- query (shop options) (accessToken options)
                       (buildQuery (topic options) address deliveryMethod
                          webhookId) ;;
           success <- lift (isSuccess result deliveryMethod webhookId) ;;
           ret (success, result)
         else ret (true, JObject [])) ;;
  (if fst sb then
     reg <- getRegistry ;;
     setRegistry
       (filter (fun item => negb (entry_topic item =? topic options)) reg
        ++ [mkEntry (path options) (topic options) (webhookHandler options)])%list
   else ret tt) ;;;
  ret (mkRegisterReturn (fst sb) (snd sb)).

(** *** [process] *)

Definition HeaderVars : Type :=
  (option string * option string * option string)%type.

Definition readHeader (vars : HeaderVars) (kv : string * string) : HeaderVars :=
  let '(hmac, topic, domain) := vars in
  let '(header, value) := kv in
  if truthyString header then
    if toLowerCase header =? toLowerCase (Hmac ShopifyHeader)
    then (Some value, topic, domain)
    else if toLowerCase header =? toLowerCase (Topic ShopifyHeader)
    then (hmac, Some value, domain)
    else if toLowerCase header =? toLowerCase (Domain ShopifyHeader)
    then (hmac, topic, Some value)
    else vars
  else vars.

Definition readHeaders (headers : Headers) : HeaderVars :=
  fold_left readHeader headers (None, None, None).

Definition missingHeaders (vars : HeaderVars) : list string :=
  let '(hmac, topic, domain) := vars in
  ((if truthy hmac then [] else [Hmac ShopifyHeader])
   ++ (if truthy topic then [] else [Topic ShopifyHeader])
   ++ (if truthy domain then [] else [Domain ShopifyHeader]))%list.

Definition missingMessage (missing : list string) : string :=
  "Missing one or more of the required HTTP headers to process webhooks: ["
  ++ String.concat ", " missing ++ "]".

Definition process (options : ProcessOptions) : M ProcessReturn :=
  let vars := readHeaders (headers options) in
  let '(hmac, topic, domain) := vars in
  match missingHeaders vars with
  | _ :: _ =>
      throw (InvalidWebhookError (missingMessage (missingHeaders vars)))
  | [] =>
      generatedHash <- createHmacDigest (API_SECRET_KEY Context)
                         (toString_utf8 (body options)) ;;
      matched <- safeCompare generatedHash (asString hmac) ;;
      if matched then
        let graphqlTopic := replaceSlashes (toUpperCase (asString topic)) in
        reg <- getRegistry ;;
        match find (fun entry => entry_topic entry =? graphqlTopic) reg with
        | Some webhookEntry =>
            invoke (entry_webhookHandler webhookEntry) graphqlTopic
              (asString domain) (body options) ;;;
            ret (mkProcessReturn Ok [])
        | None => ret (mkProcessReturn Forbidden [])
        end
      else ret (mkProcessReturn Forbidden [])
  end.

(** *** [isWebhookPath] *)

Definition isWebhookPath (path : string) : M bool :=
  reg <- getRegistry ;;
  ret (match find (fun entry => entry_path entry =? path) reg with
       | Some _ => true
       | None => false
       end).

End Registry.

Arguments mkRegisterOptions {Handler}.
Arguments topic {Handler}.
Arguments path {Handler}.
Arguments shop {Handler}.
Arguments accessToken {Handler}.
Arguments apiVersion {Handler}.
Arguments deliveryMethod {Handler}.
Arguments webhookHandler {Handler}.
Arguments mkEntry {Handler}.
Arguments entry_path {Handler}.
Arguments entry_topic {Handler}.
Arguments entry_webhookHandler {Handler}.
Arguments QuerySent {Handler}.
Arguments HmacComputed {Handler}.
Arguments Compared {Handler}.
Arguments HandlerInvoked {Handler}.
Arguments mkWorld {Handler Network}.
Arguments webhookRegistry {Handler Network}.
Arguments network {Handler Network}.
Arguments trace {Handler Network}.

(* ================================================================== *)
(** ** Notions used by the statements                                  *)
(* ================================================================== *)

(** The signature [process] computes for a body under a secret. *)
Definition generatedHash (secret : string) (body : Buffer) : string :=
  Crypto.base64
    (Crypto.hmac_sha256 (utf8_bytes secret) (utf8_bytes (toString_utf8 body))).

(** The reference signature: base64 of the HMAC-SHA256 of the very bytes of
    the body. *)
Definition referenceSignature (secret : string) (body : Buffer) : string :=
  Crypto.base64 (Crypto.hmac_sha256 (utf8_bytes secret) body).

(** The world once [process] has computed and compared the signature. *)
Definition afterVerification {Handler Network : Type}
    (w : World Handler Network) (secret : string) (body : Buffer)
    (hmac : string) : World Handler Network :=
  mkWorld (webhookRegistry w) (network w)
    ((trace w ++ [HmacComputed secret (toString_utf8 body)])
       ++ [Compared (generatedHash secret body) hmac])%list.

(** The handler invocations recorded in a trace, oldest first. *)
Definition invocations {Handler : Type} (tr : list (Event Handler))
  : list (Handler * string * string * Buffer) :=
  flat_map
    (fun ev =>
       match ev with
       | HandlerInvoked h t d b => [(h, t, d, b)]
       | _ => []
       end)
    tr.

(** Canonical topic form: uppercase, ["/"] replaced by ["_"]. *)
Definition canonicalTopic (toUpperCase : string -> string) (t : string)
  : string := replaceSlashes (toUpperCase t).

(** No header of the request has the given name, up to letter case. *)
Definition absent (toLowerCase : string -> string) (name : string)
    (headers : Headers) : Prop :=
  forall k v, In (k, v) headers -> toLowerCase k <> toLowerCase name.

(** The request carries header [name] with value [value]: some header with
    a non-empty name equal to [name] up to letter case has that value, and
    no later header has such a name. *)
Definition carries (toLowerCase : string -> string) (name : string)
    (headers : Headers) (value : string) : Prop :=
  exists pre k post,
    headers = (pre ++ (k, value) :: post)%list
    /\ k <> EmptyString
    /\ toLowerCase k = toLowerCase name
    /\ absent toLowerCase name post.

(** The mutation named by the specification for a delivery method and the
    presence of an identifier, and the argument carrying the address. *)
Definition specMutationName (m : DeliveryMethod) (update : bool) : string :=
  match m, update with
  | Http, false => "webhookSubscriptionCreate"
  | Http, true => "webhookSubscriptionUpdate"
  | EventBridge, false => "eventBridgeWebhookSubscriptionCreate"
  | EventBridge, true => "eventBridgeWebhookSubscriptionUpdate"
  end.

Definition specArgument (m : DeliveryMethod) : string :=
  match m with
  | Http => "callbackUrl"
  | EventBridge => "arn"
  end.

(** The response holds a [<mutationName>.webhookSubscription] node: the
    path [data.<mutationName>.webhookSubscription] leads through objects to
    a value that is present and not null (truthy). *)
Definition hasSubscriptionNode (response : JSON) (mutationName : string)
  : bool :=
  match response with
  | JObject fs =>
      match lookupField "data" fs with
      | JObject d =>
          match lookupField mutationName d with
          | JObject m => toBoolean (lookupField "webhookSubscription" m)
          | _ => false
          end
      | _ => false
      end
  | _ => false
  end.

(** The text of a mutation, given its name, selector and argument. *)
Definition mutationText (name identifier argument address : string) : string :=
  nl ++
  "    mutation webhookSubscription {" ++ nl ++
  "      " ++ name ++ "(" ++ identifier ++ ", webhookSubscription: {"
           ++ argument ++ ": " ++ dquote ++ address ++ dquote ++ "}) {" ++ nl ++
  "        userErrors {" ++ nl ++
  "          field" ++ nl ++
  "          message" ++ nl ++
  "        }" ++ nl ++
  "        webhookSubscription {" ++ nl ++
  "          id" ++ nl ++
  "        }" ++ nl ++
  "      }" ++ nl ++
  "    }" ++ nl ++
  "  ".

(** What [register] draws from the existence check: the address it aims
    at, the identifier of the subscription found, and whether that
    subscription already calls back to the address. *)
Definition targetAddress {Handler : Type} (Context : ContextT)
    (options : RegisterOptions Handler) : string :=
  "https://" ++ HOST_NAME Context ++ path options.

Definition existingId (checkBody : WebhookCheckResponse) : option string :=
  match edges (webhookSubscriptions (data checkBody)) with
  | e0 :: _ => Some (id (node e0))
  | [] => None
  end.

Definition alreadyRegistered (checkBody : WebhookCheckResponse)
    (address : string) : bool :=
  match edges (webhookSubscriptions (data checkBody)) with
  | e0 :: _ => callbackUrl (node e0) =? address
  | [] => false
  end.

Definition methodOf {Handler : Type} (options : RegisterOptions Handler)
  : DeliveryMethod :=
  match deliveryMethod options with
  | Some d => d
  | None => Http
  end.

(** Whether a completed [register] reported success. *)
Definition reportsSuccess (c : Completion RegisterReturn) : bool :=
  match c with
  | Normal r => success r
  | Abrupt _ => false
  end.

(** The entry a successful [register] leaves in the store. *)
Definition entryOf {Handler : Type} (options : RegisterOptions Handler)
  : WebhookRegistryEntry Handler :=
  mkEntry (path options) (topic options) (webhookHandler options).

Definition upsert {Handler : Type} (options : RegisterOptions Handler)
    (reg : list (WebhookRegistryEntry Handler))
  : list (WebhookRegistryEntry Handler) :=
  (filter (fun item => negb (entry_topic item =? topic options)) reg
   ++ [entryOf options])%list.

(** Whether a string holds the character ["/"]. *)
Fixpoint hasSlash (s : string) : bool :=
  match s with
  | EmptyString => false
  | String c r => Ascii.eqb c "/" || hasSlash r
  end.

(** The three header names differ, up to letter case. *)
Definition distinctNames (toLowerCase : string -> string)
    (names : ShopifyHeaderNames) : Prop :=
  toLowerCase (Hmac names) <> toLowerCase (Topic names)
  /\ toLowerCase (Hmac names) <> toLowerCase (Domain names)
  /\ toLowerCase (Topic names) <> toLowerCase (Domain names).

(** The bytes of the body [{"id":1}]. *)
Definition bodyId1 : Buffer :=
  list_byte_of_string ("{" ++ dquote ++ "id" ++ dquote ++ ":1}").

(* ================================================================== *)
(** ** A concrete installation, for evaluating runs                    *)
(* ================================================================== *)

Module Demo.

(** Handlers are told apart by a number. *)
Definition Handler : Type := nat.

(** The endpoint answers from a queue of prepared responses, like the
    mocked transport of the test suite. *)
Definition Network : Type := list (string + JSON).

Definition client_query (shop accessToken data : string) (n : Network)
  : (string + JSON) * Network :=
  match n with
  | [] => (inl "no response queued", [])
  | r :: rest => (r, rest)
  end.

Definition ShopifyHeader : ShopifyHeaderNames :=
  mkShopifyHeader "X-Shopify-Hmac-Sha256" "X-Shopify-Topic"
    "X-Shopify-Shop-Domain".

Definition Context : ContextT := mkContext "host" "secret".

Definition register :=
  register Handler Network client_query Context.
Definition process :=
  process Handler Network asciiToUpperCase asciiToLowerCase ShopifyHeader
    Context.
Definition isWebhookPath := isWebhookPath Handler Network.

Definition emptyWorld (n : Network) : World Handler Network :=
  mkWorld [] n [].

Definition noSubscription : JSON :=
  JObject [("data",
    JObject [("webhookSubscriptions", JObject [("edges", JArray [])])])].

Definition oneSubscription (i url : string) : JSON :=
  JObject [("data",
    JObject [("webhookSubscriptions",
      JObject [("edges",
        JArray [JObject [("node",
          JObject [("id", JString i); ("callbackUrl", JString url)])]])])])].

Definition mutationOk (name : string) : JSON :=
  JObject [("data",
    JObject [(name,
      JObject [("userErrors", JArray []);
               ("webhookSubscription", JObject [("id", JString "gid-1")])])])].

Definition mutationRefused (name : string) : JSON :=
  JObject [("data",
    JObject [(name,
      JObject [("userErrors", JArray [JObject [("message", JString "taken")]]);
               ("webhookSubscription", JNull)])])].

Definition options (t p : string) (h : Handler) : RegisterOptions Handler :=
  mkRegisterOptions t p "shop.example.com" "token" "2023-07" None h.

Definition request (sig t d : string) (b : Buffer) : ProcessOptions :=
  mkProcessOptions
    [("content-type", "application/json");
     ("x-shopify-hmac-sha256", sig);
     ("X-Shopify-Topic", t);
     ("X-SHOPIFY-SHOP-DOMAIN", d)]
    b.

(** Prepared answers: no subscription yet, then a successful creation. *)
Definition creationAnswers : Network :=
  [inr noSubscription; inr (mutationOk "webhookSubscriptionCreate")].

(** A subscription exists under another address, then a successful update. *)
Definition updateAnswers : Network :=
  [inr (oneSubscription "gid-1" "https://host/a");
   inr (mutationOk "webhookSubscriptionUpdate")].

(** A world whose store holds one entry, for topic [t]. *)
Definition registered (t : string) : World Handler Network :=
  mkWorld [mkEntry "/cb" t 7] [] [].

Definition signatureId1 : string := referenceSignature "secret" bodyId1.

(** The lone byte FF is not UTF-8; it decodes to U+FFFD, whose encoding is
    EF BF BD. *)
Definition strayByte : Buffer := [xff].
Definition replacementBytes : Buffer := [xef; xbf; xbd].

End Demo.

(** Worlds reached from an empty registry by calls of [register]. *)
Inductive reachable {Handler Network : Type}
    (client_query :
       string -> string -> string -> Network -> (string + JSON) * Network)
    (Context : ContextT) : World Handler Network -> Prop :=
  | reach_empty : forall w, webhookRegistry w = [] -> reachable client_query Context w
  | reach_register : forall w options,
      reachable client_query Context w ->
      reachable client_query Context
        (snd (register Handler Network client_query Context options w)).

(* ================================================================== *)
(** ** The platform primitives on known values                         *)
(* ================================================================== *)

(** FIPS 180-4 and RFC 4231 test vectors, and values produced by Node. *)
Example sha256_abc :
  Crypto.hex (Crypto.sha256 (list_byte_of_string "abc"))
  = "ba7816bf8f01cfea414140de5dae2223b00361a396177a9cb410ff61f20015ad"%string.
Proof. vm_compute. reflexivity. Qed.

Example sha256_empty :
  Crypto.hex (Crypto.sha256 [])
  = "e3b0c44298fc1c149afbf4c8996fb92427ae41e4649b934ca495991b7852b855"%string.
Proof. vm_compute. reflexivity. Qed.

Example sha256_four_blocks :
  Crypto.hex (Crypto.sha256 (repeat "a"%byte 200))
  = "c2a908d98f5df987ade41b5fce213067efbcc21ef2240212a41e54b5e7c28ae5"%string.
Proof. vm_compute. reflexivity. Qed.

Example hmac_rfc4231_case2 :
  Crypto.hex (Crypto.hmac_sha256 (list_byte_of_string "Jefe")
                (list_byte_of_string "what do ya want for nothing?"))
  = "5bdcc146bf60754e6a042426089575c75a003f089d2739839dec58b964ec3843"%string.
Proof. vm_compute. reflexivity. Qed.

Example hmac_long_key :
  Crypto.hex (Crypto.hmac_sha256 (repeat "k"%byte 100) (repeat "m"%byte 130))
  = "83aa675dc7494edede3012008691209d2d943d406b11343c97f3346279260da1"%string.
Proof. vm_compute. reflexivity. Qed.

Example base64_foobar :
  Crypto.base64 (list_byte_of_string "foobar") = "Zm9vYmFy"%string
  /\ Crypto.base64 (list_byte_of_string "fo") = "Zm8="%string
  /\ Crypto.base64 (list_byte_of_string "f") = "Zg=="%string.
Proof. vm_compute. repeat split. Qed.

Example toString_ascii :
  toString_utf8 (list_byte_of_string "{id:1}") = "{id:1}"%string.
Proof. vm_compute. reflexivity. Qed.

Example toString_euro :
  toString_utf8 [xe2; x82; xac]
  = string_of_list_byte [xe2; x82; xac].
Proof. vm_compute. reflexivity. Qed.

Example toString_stray_byte :
  toString_utf8 [xff] = string_of_list_byte [xef; xbf; xbd].
Proof. vm_compute. reflexivity. Qed.

Example toString_truncated :
  toString_utf8 [xe2; x82; x41]
  = string_of_list_byte [xef; xbf; xbd; x41].
Proof. vm_compute. reflexivity. Qed.

(* ================================================================== *)
(** ** Properties                                                      *)
(* ================================================================== *)

(** *** UTF-8: decoding what was encoded *)

Section Utf8RoundTrip.
Local Open Scope Z_scope.

Ltac head_test :=
  lazymatch goal with
  | |- (if ?c then _ else _) = _ =>
      lazymatch c with
      | (?a <? ?b) => destruct (Z.ltb_spec a b); try lia
      | (?a <=? ?b) && (?c' <=? ?d) =>
          destruct (Z.leb_spec a b); try lia;
          destruct (Z.leb_spec c' d); try lia; cbn [andb]
      end
  end.

Lemma decode_one (b : Z) (r : list Z) :
  b < 128 -> Utf8.decode (b :: r) = b :: Utf8.decode r.
Proof.
  intros Hb. cbn [Utf8.decode].
  destruct (Z.ltb_spec b 128); [reflexivity|lia].
Qed.

Lemma decode_two (b0 b1 : Z) (r : list Z) :
  194 <= b0 <= 223 -> 128 <= b1 <= 191 ->
  Utf8.decode (b0 :: b1 :: r) = (b0 - 192) * 64 + (b1 - 128) :: Utf8.decode r.
Proof.
  intros H0 H1. 
  remember (Utf8.decode r) as tail eqn:Et.
  cbn [Utf8.decode]. rewrite <- Et.
  unfold Utf8.continuation.
  do 3 head_test. reflexivity.
Qed.

Lemma decode_three (b0 b1 b2 : Z) (r : list Z) :
  224 <= b0 <= 239 ->
  (if b0 =? 224 then 160 else 128) <= b1 <= (if b0 =? 237 then 159 else 191) ->
  128 <= b2 <= 191 ->
  Utf8.decode (b0 :: b1 :: b2 :: r)
  = (b0 - 224) * 4096 + (b1 - 128) * 64 + (b2 - 128) :: Utf8.decode r.
Proof.
  intros H0 H1 H2.
  remember (Utf8.decode r) as tail eqn:Et.
  cbn [Utf8.decode]. rewrite <- Et.
  unfold Utf8.continuation.
  do 4 head_test. head_test. reflexivity.
Qed.

Lemma decode_four (b0 b1 b2 b3 : Z) (r : list Z) :
  240 <= b0 <= 244 ->
  (if b0 =? 240 then 144 else 128) <= b1 <= (if b0 =? 244 then 143 else 191) ->
  128 <= b2 <= 191 ->
  128 <= b3 <= 191 ->
  Utf8.decode (b0 :: b1 :: b2 :: b3 :: r)
  = (b0 - 240) * 262144 + (b1 - 128) * 4096 + (b2 - 128) * 64 + (b3 - 128)
    :: Utf8.decode r.
Proof.
  intros H0 H1 H2 H3.
  remember (Utf8.decode r) as tail eqn:Et.
  cbn [Utf8.decode]. rewrite <- Et.
  unfold Utf8.continuation.
  do 7 head_test. reflexivity.
Qed.

Lemma decode_encode1 (c : Z) (r : list Z) :
  Utf8.scalar c ->
  Utf8.decode (Utf8.encode1 c ++ r) = c :: Utf8.decode r.
Proof.
  intros Hc. unfold Utf8.scalar in Hc. unfold Utf8.encode1.
  destruct (Z.ltb_spec c 128) as [H1|H1].
  { cbn [app]. apply decode_one. exact H1. }
  destruct (Z.ltb_spec c 2048) as [H2|H2].
  { cbn [app]. rewrite decode_two.
    - f_equal. Z.div_mod_to_equations. lia.
    - Z.div_mod_to_equations. lia.
    - Z.div_mod_to_equations. lia. }
  destruct (Z.ltb_spec c 65536) as [H3|H3].
  { cbn [app]. rewrite decode_three.
    - f_equal. Z.div_mod_to_equations. lia.
    - Z.div_mod_to_equations. lia.
    - destruct (Z.eqb_spec (224 + c / 4096) 224);
        destruct (Z.eqb_spec (224 + c / 4096) 237);
        Z.div_mod_to_equations; lia.
    - Z.div_mod_to_equations. lia. }
  cbn [app]. rewrite decode_four.
  - f_equal. Z.div_mod_to_equations. lia.
  - Z.div_mod_to_equations. lia.
  - destruct (Z.eqb_spec (240 + c / 262144) 240);
      destruct (Z.eqb_spec (240 + c / 262144) 244);
      Z.div_mod_to_equations; lia.
  - Z.div_mod_to_equations. lia.
  - Z.div_mod_to_equations. lia.
Qed.

Lemma decode_encode (cs : list Z) :
  Forall Utf8.scalar cs -> Utf8.decode (Utf8.encode cs) = cs.
Proof.
  induction 1 as [|c cs Hc _ IH]; [reflexivity|].
  unfold Utf8.encode in *. cbn [flat_map].
  rewrite decode_encode1 by exact Hc. rewrite IH. reflexivity.
Qed.

Lemma Zbyte_byteZ (b : byte) : Crypto.Zbyte (Crypto.byteZ b) = b.
Proof. destruct b; reflexivity. Qed.

Lemma toString_wellFormed (b : Buffer) :
  Utf8.wellFormed b -> utf8_bytes (toString_utf8 b) = b.
Proof.
  intros (cs & Hcs & Hb). unfold utf8_bytes, toString_utf8.
  rewrite list_byte_of_string_of_list_byte, Hb, (decode_encode cs Hcs), <- Hb.
  rewrite map_map. rewrite <- (map_id b) at 2.
  apply map_ext. exact Zbyte_byteZ.
Qed.

Lemma ascii_wellFormed (b : Buffer) :
  Forall (fun x => Crypto.byteZ x < 128) b -> Utf8.wellFormed b.
Proof.
  intros Hb. exists (map Crypto.byteZ b). split.
  - apply Forall_map. apply Forall_impl with (2 := Hb).
    intros x Hx. left. split; [|lia].
    unfold Crypto.byteZ. lia.
  - induction Hb as [|x b Hx _ IH]; [reflexivity|].
    cbn [map]. unfold Utf8.encode in *. cbn [flat_map]. rewrite <- IH.
    unfold Utf8.encode1. destruct (Z.ltb_spec (Crypto.byteZ x) 128); [reflexivity|lia].
Qed.

End Utf8RoundTrip.

(** *** The computed signature is never the empty string *)

Lemma sha256Z_cons (msg : list Z) : exists x l, Crypto.sha256Z msg = x :: l.
Proof.
  unfold Crypto.sha256Z.
  destruct (fold_left Crypto.compress _ Crypto.initial)
    as [[[[[[[a b] c] d] e] f] g] h].
  cbn [map List.concat Crypto.be_bytes app]. eauto.
Qed.

Lemma base64_hmac_nonempty (key msg : list byte) :
  Crypto.base64 (Crypto.hmac_sha256 key msg) <> EmptyString.
Proof.
  unfold Crypto.base64, Crypto.hmac_sha256, Crypto.hmacZ. cbv zeta.
  match goal with
  | |- Crypto.base64Z (map _ (map _ (Crypto.sha256Z ?m))) <> _ =>
      destruct (sha256Z_cons m) as (x & l & E); rewrite E
  end.
  cbn [map].
  destruct (map Crypto.byteZ (map Crypto.Zbyte l)) as [|y [|z r]];
    cbn [Crypto.base64Z]; discriminate.
Qed.

Section RegistryProperties.

Variable Handler : Type.
Variable Network : Type.
Variable client_query :
  string -> string -> string -> Network -> (string + JSON) * Network.
Variable toUpperCase : string -> string.
Variable toLowerCase : string -> string.
Variable ShopifyHeader : ShopifyHeaderNames.
Variable Context : ContextT.

Local Abbreviation W := (World Handler Network).
Local Abbreviation registerC := (register Handler Network client_query Context).
Local Abbreviation processC :=
  (process Handler Network toUpperCase toLowerCase ShopifyHeader Context).
Local Abbreviation readHeadersC := (readHeaders toLowerCase ShopifyHeader).
Local Abbreviation missingHeadersC := (missingHeaders ShopifyHeader).
Local Abbreviation absentC := (absent toLowerCase).

(** *** Strings *)

Lemma append_assoc (a b c : string) : (a ++ b) ++ c = a ++ (b ++ c).
Proof.
  induction a as [|ch a IH]; [reflexivity|].
  cbn [append]. rewrite IH. reflexivity.
Qed.

(** *** Header extraction *)

Lemma readHeader_hmac_absent (hs : Headers) : forall h t d,
  absentC (Hmac ShopifyHeader) hs ->
  fst (fst (fold_left (readHeader toLowerCase ShopifyHeader) hs (h, t, d))) = h.
Proof.
  induction hs as [|[k v] hs IH]; intros h t d Habs; [reflexivity|].
  assert (Hk : toLowerCase k <> toLowerCase (Hmac ShopifyHeader))
    by (apply (Habs k v); left; reflexivity).
  assert (Hrest : absentC (Hmac ShopifyHeader) hs)
    by (intros k' v' Hin; apply (Habs k' v'); right; exact Hin).
  apply String.eqb_neq in Hk.
  cbn [fold_left]. unfold readHeader at 2. rewrite Hk.
  destruct (truthyString k); [|apply IH; exact Hrest].
  destruct (toLowerCase k =? toLowerCase (Topic ShopifyHeader));
    [apply IH; exact Hrest|].
  destruct (toLowerCase k =? toLowerCase (Domain ShopifyHeader));
    apply IH; exact Hrest.
Qed.

Lemma readHeader_topic_absent (hs : Headers) : forall h t d,
  absentC (Topic ShopifyHeader) hs ->
  snd (fst (fold_left (readHeader toLowerCase ShopifyHeader) hs (h, t, d))) = t.
Proof.
  induction hs as [|[k v] hs IH]; intros h t d Habs; [reflexivity|].
  assert (Hk : toLowerCase k <> toLowerCase (Topic ShopifyHeader))
    by (apply (Habs k v); left; reflexivity).
  assert (Hrest : absentC (Topic ShopifyHeader) hs)
    by (intros k' v' Hin; apply (Habs k' v'); right; exact Hin).
  apply String.eqb_neq in Hk.
  cbn [fold_left]. unfold readHeader at 2. rewrite Hk.
  destruct (truthyString k); [|apply IH; exact Hrest].
  destruct (toLowerCase k =? toLowerCase (Hmac ShopifyHeader));
    [apply IH; exact Hrest|].
  destruct (toLowerCase k =? toLowerCase (Domain ShopifyHeader));
    apply IH; exact Hrest.
Qed.

Lemma readHeader_domain_absent (hs : Headers) : forall h t d,
  absentC (Domain ShopifyHeader) hs ->
  snd (fold_left (readHeader toLowerCase ShopifyHeader) hs (h, t, d)) = d.
Proof.
  induction hs as [|[k v] hs IH]; intros h t d Habs; [reflexivity|].
  assert (Hk : toLowerCase k <> toLowerCase (Domain ShopifyHeader))
    by (apply (Habs k v); left; reflexivity).
  assert (Hrest : absentC (Domain ShopifyHeader) hs)
    by (intros k' v' Hin; apply (Habs k' v'); right; exact Hin).
  apply String.eqb_neq in Hk.
  cbn [fold_left]. unfold readHeader at 2. rewrite Hk.
  destruct (truthyString k); [|apply IH; exact Hrest].
  destruct (toLowerCase k =? toLowerCase (Hmac ShopifyHeader));
    [apply IH; exact Hrest|].
  destruct (toLowerCase k =? toLowerCase (Topic ShopifyHeader));
    apply IH; exact Hrest.
Qed.

(** With three header names that differ up to letter case, what the
    request carries is what [process] reads. *)
Lemma readHeaders_carries (hs : Headers) (s t d : string) :
  toLowerCase (Hmac ShopifyHeader) <> toLowerCase (Topic ShopifyHeader) ->
  toLowerCase (Hmac ShopifyHeader) <> toLowerCase (Domain ShopifyHeader) ->
  toLowerCase (Topic ShopifyHeader) <> toLowerCase (Domain ShopifyHeader) ->
  carries toLowerCase (Hmac ShopifyHeader) hs s ->
  carries toLowerCase (Topic ShopifyHeader) hs t ->
  carries toLowerCase (Domain ShopifyHeader) hs d ->
  readHeadersC hs = (Some s, Some t, Some d).
Proof.
  intros Hht Hhd Htd Cs Ct Cd.
  assert (Tk : forall k, k <> EmptyString -> truthyString k = true)
    by (intros [|c k] Hk; [contradiction Hk; reflexivity|reflexivity]).
  unfold readHeaders.
  destruct (fold_left (readHeader toLowerCase ShopifyHeader) hs
              (None, None, None)) as [[h' t'] d'] eqn:E.
  assert (Eh : h' = Some s).
  { destruct Cs as (pre & k & post & -> & Hk & Hlow & Habs).
    rewrite fold_left_app in E. cbn [fold_left] in E.
    destruct (fold_left (readHeader toLowerCase ShopifyHeader) pre
                (None, None, None)) as [[h0 t0] d0].
    unfold readHeader at 2 in E.
    rewrite (Tk k Hk), Hlow, String.eqb_refl in E.
    pose proof (readHeader_hmac_absent post (Some s) t0 d0 Habs) as R.
    rewrite E in R. exact R. }
  assert (Et : t' = Some t).
  { destruct Ct as (pre & k & post & -> & Hk & Hlow & Habs).
    rewrite fold_left_app in E. cbn [fold_left] in E.
    destruct (fold_left (readHeader toLowerCase ShopifyHeader) pre
                (None, None, None)) as [[h0 t0] d0].
    unfold readHeader at 2 in E.
    rewrite (Tk k Hk), Hlow, String.eqb_refl in E.
    apply not_eq_sym in Hht. apply String.eqb_neq in Hht. rewrite Hht in E.
    pose proof (readHeader_topic_absent post h0 (Some t) d0 Habs) as R.
    rewrite E in R. exact R. }
  assert (Ed : d' = Some d).
  { destruct Cd as (pre & k & post & -> & Hk & Hlow & Habs).
    rewrite fold_left_app in E. cbn [fold_left] in E.
    destruct (fold_left (readHeader toLowerCase ShopifyHeader) pre
                (None, None, None)) as [[h0 t0] d0].
    unfold readHeader at 2 in E.
    rewrite (Tk k Hk), Hlow, String.eqb_refl in E.
    apply not_eq_sym in Hhd. apply String.eqb_neq in Hhd. rewrite Hhd in E.
    apply not_eq_sym in Htd. apply String.eqb_neq in Htd. rewrite Htd in E.
    pose proof (readHeader_domain_absent post h0 t0 (Some d) Habs) as R.
    rewrite E in R. exact R. }
  subst. reflexivity.
Qed.

(** *** The two ways [process] ends *)

Lemma process_missing (options : ProcessOptions) (w : W) m ms :
  missingHeadersC (readHeadersC (headers options)) = m :: ms ->
  processC options w
  = (Abrupt (InvalidWebhookError (missingMessage (m :: ms))), w).
Proof.
  intros Hm. unfold process.
  destruct (readHeadersC (headers options)) as [[h t] d].
  rewrite Hm. reflexivity.
Qed.

Lemma process_present (options : ProcessOptions) (w : W) hmac topic domain :
  readHeadersC (headers options) = (Some hmac, Some topic, Some domain) ->
  truthyString hmac = true ->
  truthyString topic = true ->
  truthyString domain = true ->
  processC options w
  = let secret := API_SECRET_KEY Context in
    let w1 := afterVerification w secret (body options) hmac in
    if generatedHash secret (body options) =? hmac then
      match find (fun e => entry_topic e =? canonicalTopic toUpperCase topic)
              (webhookRegistry w) with
      | Some e =>
          (Normal (mkProcessReturn Ok []),
           mkWorld (webhookRegistry w) (network w)
             (trace w1
                ++ [HandlerInvoked (entry_webhookHandler e)
                      (canonicalTopic toUpperCase topic) domain (body options)])%list)
      | None => (Normal (mkProcessReturn Forbidden []), w1)
      end
    else (Normal (mkProcessReturn Forbidden []), w1).
Proof.
  intros Hread Hh Ht Hd. unfold process. rewrite Hread.
  unfold missingHeaders. cbn [truthy]. rewrite Hh, Ht, Hd. cbn [app].
  cbv [bind createHmacDigest safeCompare emit ret getRegistry invoke
       afterVerification asString canonicalTopic generatedHash
       webhookRegistry network trace].
  destruct (_ =? hmac); [|reflexivity].
  destruct (find _ _); reflexivity.
Qed.

(** *** Dispatch *)

(** C4.  When at least one of the three required headers is absent from the
    request (no header name equals it up to letter case), [process] raises
    the missing-headers error at once: the message lists every absent
    header, and the world is left as it was, so no HMAC was computed, no
    comparison made and no handler invoked. *)
Theorem process_missing_header_fails_first
    (options : ProcessOptions) (w : W) :
  absentC (Hmac ShopifyHeader) (headers options)
  \/ absentC (Topic ShopifyHeader) (headers options)
  \/ absentC (Domain ShopifyHeader) (headers options) ->
  exists missing,
    processC options w
    = (Abrupt (InvalidWebhookError (missingMessage missing)), w)
    /\ missingMessage missing
       = "Missing one or more of the required HTTP headers to process webhooks: ["
         ++ String.concat ", " missing ++ "]"
    /\ (absentC (Hmac ShopifyHeader) (headers options) ->
        In (Hmac ShopifyHeader) missing)
    /\ (absentC (Topic ShopifyHeader) (headers options) ->
        In (Topic ShopifyHeader) missing)
    /\ (absentC (Domain ShopifyHeader) (headers options) ->
        In (Domain ShopifyHeader) missing).
Proof.
  intros Habs.
  pose proof (readHeader_hmac_absent (headers options) None None None) as Eh.
  pose proof (readHeader_topic_absent (headers options) None None None) as Et.
  pose proof (readHeader_domain_absent (headers options) None None None) as Ed.
  fold (readHeadersC (headers options)) in Eh, Et, Ed.
  exists (missingHeadersC (readHeadersC (headers options))).
  destruct (readHeadersC (headers options)) as [[h t] d] eqn:Hread.
  cbn [fst snd] in Eh, Et, Ed.
  assert (Hin : (absentC (Hmac ShopifyHeader) (headers options) ->
                 In (Hmac ShopifyHeader) (missingHeadersC (h, t, d)))
                /\ (absentC (Topic ShopifyHeader) (headers options) ->
                    In (Topic ShopifyHeader) (missingHeadersC (h, t, d)))
                /\ (absentC (Domain ShopifyHeader) (headers options) ->
                    In (Domain ShopifyHeader) (missingHeadersC (h, t, d)))).
  { unfold missingHeaders. repeat split; intros A.
    - rewrite (Eh A). cbn. left; reflexivity.
    - rewrite (Et A). apply in_or_app; right. cbn. left; reflexivity.
    - rewrite (Ed A). apply in_or_app; right. apply in_or_app; right.
      cbn. left; reflexivity. }
  destruct (missingHeadersC (h, t, d)) as [|m ms] eqn:Hm.
  - exfalso. destruct Hin as (I1 & I2 & I3).
    destruct Habs as [A|[A|A]]; [apply (I1 A)|apply (I2 A)|apply (I3 A)].
  - split; [|split; [reflexivity|exact Hin]].
    apply process_missing. rewrite Hread. exact Hm.
Qed.

(** C5, as the code has it.  The signature [process] compares with is
    base64(HMAC-SHA256(secret, b')), where b' is the UTF-8 encoding of the
    body decoded as UTF-8; for a body that is well-formed UTF-8, b' is the
    body itself.  When the three required headers are present, that is,
    read with non-empty values ([readHeaders_carries] says when a request
    is read so), and the provided signature differs from that signature,
    or the body is well-formed UTF-8 and the provided signature differs
    from the reference signature over the exact bytes of the body,
    [process] returns the "forbidden" status; the only calls made are the
    HMAC computation and the comparison, so no handler is invoked and the
    registry is untouched. *)
Theorem process_signature_mismatch_forbidden
    (options : ProcessOptions) (w : W) (hmac topic domain : string) :
  readHeadersC (headers options) = (Some hmac, Some topic, Some domain) ->
  truthyString hmac = true ->
  truthyString topic = true ->
  truthyString domain = true ->
  hmac <> Crypto.base64
            (Crypto.hmac_sha256 (utf8_bytes (API_SECRET_KEY Context))
               (utf8_bytes (toString_utf8 (body options))))
  \/ (Utf8.wellFormed (body options)
      /\ hmac <> referenceSignature (API_SECRET_KEY Context) (body options)) ->
  exists w',
    processC options w = (Normal (mkProcessReturn Forbidden []), w')
    /\ webhookRegistry w' = webhookRegistry w
    /\ trace w'
       = (trace w
            ++ [HmacComputed (API_SECRET_KEY Context)
                  (toString_utf8 (body options));
                Compared (generatedHash (API_SECRET_KEY Context) (body options))
                  hmac])%list
    /\ (forall h t d b, ~ In (HandlerInvoked h t d b) (trace w) ->
                        ~ In (HandlerInvoked h t d b) (trace w')).
Proof.
  intros Hread Hh Ht Hd Hmismatch.
  assert (Hneq : hmac <> generatedHash (API_SECRET_KEY Context) (body options)).
  { destruct Hmismatch as [H|[Hwf H]]; [exact H|].
    unfold generatedHash. rewrite (toString_wellFormed _ Hwf). exact H. }
  rewrite (process_present options w hmac topic domain Hread Hh Ht Hd).
  cbv zeta.
  assert (E : (generatedHash (API_SECRET_KEY Context) (body options) =? hmac)
              = false) by (apply String.eqb_neq; congruence).
  rewrite E. eexists; split; [reflexivity|].
  unfold afterVerification; cbn [webhookRegistry trace].
  split; [reflexivity|]. split.
  - rewrite <- app_assoc. reflexivity.
  - intros h t d b Hnot Hin.
    apply in_app_or in Hin. destruct Hin as [Hin|[Hin|[]]]; [|discriminate].
    apply in_app_or in Hin. destruct Hin as [Hin|[Hin|[]]]; [|discriminate].
    exact (Hnot Hin).
Qed.

(** C6.  When the three required headers are present, that is, read with
    non-empty values, and the signature matches, but no entry of the
    registry has the canonical form of the topic header as its topic,
    [process] returns the very result of a signature mismatch, status
    "forbidden" with no headers, and invokes no handler. *)
Theorem process_unknown_topic_forbidden
    (options : ProcessOptions) (w : W) (hmac topic domain : string) :
  readHeadersC (headers options) = (Some hmac, Some topic, Some domain) ->
  truthyString hmac = true ->
  truthyString topic = true ->
  truthyString domain = true ->
  hmac = generatedHash (API_SECRET_KEY Context) (body options) ->
  (forall e, In e (webhookRegistry w) ->
             entry_topic e <> canonicalTopic toUpperCase topic) ->
  exists w',
    processC options w = (Normal (mkProcessReturn Forbidden []), w')
    /\ webhookRegistry w' = webhookRegistry w
    /\ trace w'
       = (trace w
            ++ [HmacComputed (API_SECRET_KEY Context)
                  (toString_utf8 (body options));
                Compared (generatedHash (API_SECRET_KEY Context) (body options))
                  hmac])%list
    /\ (forall h t d b, ~ In (HandlerInvoked h t d b) (trace w) ->
                        ~ In (HandlerInvoked h t d b) (trace w')).
Proof.
  intros Hread Hh Ht Hd Heq Hnone.
  rewrite (process_present options w hmac topic domain Hread Hh Ht Hd).
  cbv zeta.
  assert (E : (generatedHash (API_SECRET_KEY Context) (body options) =? hmac)
              = true) by (apply String.eqb_eq; congruence).
  rewrite E.
  destruct (find _ (webhookRegistry w)) as [e|] eqn:Hfind.
  - exfalso. apply find_some in Hfind. destruct Hfind as [Hin He].
    apply String.eqb_eq in He. exact (Hnone e Hin He).
  - eexists; split; [reflexivity|].
    unfold afterVerification; cbn [webhookRegistry trace].
    split; [reflexivity|]. split.
    + rewrite <- app_assoc. reflexivity.
    + intros h t d b Hnot Hin.
      apply in_app_or in Hin. destruct Hin as [Hin|[Hin|[]]]; [|discriminate].
      apply in_app_or in Hin. destruct Hin as [Hin|[Hin|[]]]; [|discriminate].
      exact (Hnot Hin).
Qed.

(** C10.  [isWebhookPath path] answers true exactly when some entry of the
    registry has [path] as its path field, compared as strings, and it
    leaves the world, the registry included, as it found it. *)
Theorem isWebhookPath_iff_entry (p : string) (w : W) :
  exists b,
    isWebhookPath Handler Network p w = (Normal b, w)
    /\ (b = true <->
        exists e, In e (webhookRegistry w) /\ entry_path e = p).
Proof.
  unfold isWebhookPath, bind, getRegistry, ret.
  destruct (find (fun entry => entry_path entry =? p) (webhookRegistry w))
    as [e|] eqn:Hfind.
  - exists true. split; [reflexivity|]. split; [intros _|reflexivity].
    apply find_some in Hfind. destruct Hfind as [Hin He].
    exists e. split; [exact Hin|apply String.eqb_eq; exact He].
  - exists false. split; [reflexivity|]. split; [discriminate|].
    intros (e & Hin & He). exfalso.
    pose proof (find_none _ _ Hfind e Hin) as Hn. cbv beta in Hn.
    apply String.eqb_neq in Hn. exact (Hn He).
Qed.

(** *** Registration *)

(** [register] spelled out as the sequence of its outcomes. *)
Lemma register_run (options : RegisterOptions Handler) (w : W) :
  registerC options w
  = let checkQuery := buildCheckQuery (topic options) in
    let sent1 :=
      (trace w ++ [QuerySent (shop options) (accessToken options) checkQuery])%list in
    match client_query (shop options) (accessToken options) checkQuery
            (network w) with
    | (inl reason, n1) =>
        (Abrupt (RequestError reason), mkWorld (webhookRegistry w) n1 sent1)
    | (inr checkResult, n1) =>
        match asWebhookCheckResponse checkResult with
        | None => (Abrupt TypeError, mkWorld (webhookRegistry w) n1 sent1)
        | Some checkBody =>
            let address := targetAddress Context options in
            if alreadyRegistered checkBody address then
              (Normal (mkRegisterReturn true (JObject [])),
               mkWorld (upsert options (webhookRegistry w)) n1 sent1)
            else
              let mutation :=
                buildQuery (topic options) address (methodOf options)
                  (existingId checkBody) in
              let sent2 :=
                (sent1 ++ [QuerySent (shop options) (accessToken options) mutation])%list in
              match client_query (shop options) (accessToken options) mutation
                      n1 with
              | (inl reason, n2) =>
                  (Abrupt (RequestError reason),
                   mkWorld (webhookRegistry w) n2 sent2)
              | (inr result, n2) =>
                  match isSuccess result (methodOf options)
                          (existingId checkBody) with
                  | Abrupt e => (Abrupt e, mkWorld (webhookRegistry w) n2 sent2)
                  | Normal true =>
                      (Normal (mkRegisterReturn true result),
                       mkWorld (upsert options (webhookRegistry w)) n2 sent2)
                  | Normal false =>
                      (Normal (mkRegisterReturn false result),
                       mkWorld (webhookRegistry w) n2 sent2)
                  end
              end
        end
    end.
Proof.
  cbv zeta.
  unfold register, targetAddress, alreadyRegistered, existingId, methodOf,
    upsert, entryOf.
  cbv [bind query lift ret getRegistry setRegistry].
  destruct (client_query _ _ _ (network w)) as [[reason|checkResult] n1];
    [reflexivity|].
  cbn [webhookRegistry network trace].
  destruct (asWebhookCheckResponse checkResult) as [checkBody|]; [|reflexivity].
  destruct (edges (webhookSubscriptions (data checkBody))) as [|e0 rest].
  - cbn [negb fst snd webhookRegistry network trace].
    destruct (client_query _ _ _ n1) as [[reason|result] n2]; [reflexivity|].
    destruct (isSuccess result _ None) as [[|]|e]; reflexivity.
  - destruct (callbackUrl (node e0) =? _);
      cbn [negb fst snd webhookRegistry network trace]; [reflexivity|].
    destruct (client_query _ _ _ n1) as [[reason|result] n2]; [reflexivity|].
    destruct (isSuccess result _ _) as [[|]|e]; reflexivity.
Qed.

Lemma BooleanOf_guard (v : JSON) (c : Completion JSON) :
  BooleanOf (if toBoolean v then c else Normal v)
  = if toBoolean v then BooleanOf c else Normal false.
Proof.
  destruct (toBoolean v) eqn:E; [reflexivity|].
  cbn [BooleanOf]. rewrite E. reflexivity.
Qed.

Lemma node_chain (d : JSON) (name : string) :
  BooleanOf
    (andAlso (Normal d)
       (andAlso (getProp d name)
          (match getProp d name with
           | Normal x => getProp x "webhookSubscription"
           | Abrupt e => Abrupt e
           end)))
  = Normal
      match d with
      | JObject fs =>
          match lookupField name fs with
          | JObject m => toBoolean (lookupField "webhookSubscription" m)
          | _ => false
          end
      | _ => false
      end.
Proof.
  cbn [andAlso]. rewrite BooleanOf_guard.
  destruct d as [| |b|n|s|items|fs]; cbn [toBoolean getProp andAlso BooleanOf];
    try reflexivity;
    try (match goal with
         | |- (if ?c then _ else _) = _ => destruct c; reflexivity
         end).
  rewrite BooleanOf_guard.
  destruct (lookupField name fs) as [| |b|n|s|items|m];
    cbn [toBoolean getProp BooleanOf]; try reflexivity;
    match goal with |- (if ?c then _ else _) = _ => destruct c; reflexivity end.
Qed.

Lemma isSuccess_node (result : JSON) (m : DeliveryMethod)
    (webhookId : option string) :
  isSuccess result m webhookId
  = match result with
    | JUndefined | JNull => Abrupt TypeError
    | _ =>
        Normal (hasSubscriptionNode result (specMutationName m (truthy webhookId)))
    end.
Proof.
  unfold isSuccess.
  destruct m; destruct (truthy webhookId);
    cbn [specMutationName];
    (destruct result as [| |b|n|s|items|fs]; try reflexivity);
    cbn [getPath fold_left getProp hasSubscriptionNode];
    apply node_chain.
Qed.

Lemma isSuccess_true_iff (result : JSON) (m : DeliveryMethod)
    (webhookId : option string) :
  isSuccess result m webhookId = Normal true <->
  hasSubscriptionNode result (specMutationName m (truthy webhookId)) = true.
Proof.
  rewrite isSuccess_node.
  destruct result; cbn [hasSubscriptionNode];
    split; intros H; try discriminate H; congruence.
Qed.

Lemma register_registry_on_success (options : RegisterOptions Handler) (w : W) :
  reportsSuccess (fst (registerC options w)) = true ->
  webhookRegistry (snd (registerC options w))
  = upsert options (webhookRegistry w).
Proof.
  rewrite register_run. cbv zeta.
  destruct (client_query _ _ _ (network w)) as [[reason|checkResult] n1];
    [discriminate|].
  destruct (asWebhookCheckResponse checkResult) as [checkBody|]; [|discriminate].
  destruct (alreadyRegistered checkBody _); [reflexivity|].
  destruct (client_query _ _ _ n1) as [[reason|result] n2]; [discriminate|].
  destruct (isSuccess result _ _) as [[|]|e]; [reflexivity|discriminate|discriminate].
Qed.

Lemma register_registry_on_failure (options : RegisterOptions Handler) (w : W) :
  reportsSuccess (fst (registerC options w)) = false ->
  webhookRegistry (snd (registerC options w)) = webhookRegistry w.
Proof.
  rewrite register_run. cbv zeta.
  destruct (client_query _ _ _ (network w)) as [[reason|checkResult] n1];
    [reflexivity|].
  destruct (asWebhookCheckResponse checkResult) as [checkBody|]; [|reflexivity].
  destruct (alreadyRegistered checkBody _); [discriminate|].
  destruct (client_query _ _ _ n1) as [[reason|result] n2]; [reflexivity|].
  destruct (isSuccess result _ _) as [[|]|e]; [discriminate|reflexivity|reflexivity].
Qed.

(** *** The store under [upsert] *)

Lemma filter_topic_disjoint (t : string) (reg : list (WebhookRegistryEntry Handler)) :
  filter (fun e => entry_topic e =? t)
    (filter (fun item => negb (entry_topic item =? t)) reg) = [].
Proof.
  induction reg as [|e reg IH]; [reflexivity|].
  cbn [filter]. destruct (entry_topic e =? t) eqn:E; cbn [negb]; [exact IH|].
  cbn [filter]. rewrite E. exact IH.
Qed.

Lemma upsert_single (options : RegisterOptions Handler)
    (reg : list (WebhookRegistryEntry Handler)) :
  filter (fun e => entry_topic e =? topic options) (upsert options reg)
  = [entryOf options].
Proof.
  unfold upsert. rewrite filter_app, filter_topic_disjoint.
  cbn [app filter entryOf entry_topic]. rewrite String.eqb_refl. reflexivity.
Qed.

Lemma NoDup_topics_filter (f : WebhookRegistryEntry Handler -> bool)
    (reg : list (WebhookRegistryEntry Handler)) :
  NoDup (map entry_topic reg) -> NoDup (map entry_topic (filter f reg)).
Proof.
  induction reg as [|e reg IH]; intros Hnd; [constructor|].
  cbn [map] in Hnd. apply NoDup_cons_iff in Hnd. destruct Hnd as [Hnotin Hnd].
  cbn [filter]. destruct (f e); [|apply IH; exact Hnd].
  cbn [map]. constructor; [|apply IH; exact Hnd].
  intros Hin. apply Hnotin.
  apply in_map_iff in Hin. destruct Hin as (e' & He' & Hin').
  apply filter_In in Hin'. destruct Hin' as [Hin' _].
  apply in_map_iff. exists e'. split; assumption.
Qed.

Lemma upsert_NoDup (options : RegisterOptions Handler)
    (reg : list (WebhookRegistryEntry Handler)) :
  NoDup (map entry_topic reg) ->
  NoDup (map entry_topic (upsert options reg)).
Proof.
  intros Hnd. unfold upsert. rewrite map_app. apply NoDup_app.
  - apply NoDup_topics_filter. exact Hnd.
  - cbn [map]. constructor; [intros []|constructor].
  - intros t Hin [Ht|[]]. cbn [entryOf entry_topic] in Ht. subst t.
    apply in_map_iff in Hin. destruct Hin as (e & He & Hin).
    apply filter_In in Hin. destruct Hin as [_ Hf].
    rewrite He, String.eqb_refl in Hf. discriminate.
Qed.

Lemma register_keeps_topics_unique (options : RegisterOptions Handler) (w : W) :
  NoDup (map entry_topic (webhookRegistry w)) ->
  NoDup (map entry_topic (webhookRegistry (snd (registerC options w)))).
Proof.
  intros Hnd.
  destruct (reportsSuccess (fst (registerC options w))) eqn:E.
  - rewrite (register_registry_on_success options w E).
    apply upsert_NoDup. exact Hnd.
  - rewrite (register_registry_on_failure options w E). exact Hnd.
Qed.

(** C3.  In every world reached from an empty registry by calls of
    [register], no two entries of the store have the same topic.  And when
    two calls for one topic succeed one after the other, the store then
    holds exactly one entry for that topic: the path and handler of the
    second call. *)
Theorem registry_one_entry_per_topic (w : W) :
  reachable client_query Context w ->
  NoDup (map entry_topic (webhookRegistry w))
  /\ forall (o1 o2 : RegisterOptions Handler) r1 r2 (w1 w2 : W),
       topic o1 = topic o2 ->
       registerC o1 w = (Normal r1, w1) -> success r1 = true ->
       registerC o2 w1 = (Normal r2, w2) -> success r2 = true ->
       filter (fun e => entry_topic e =? topic o2) (webhookRegistry w2)
       = [entryOf o2]
       /\ NoDup (map entry_topic (webhookRegistry w2)).
Proof.
  intros Hreach.
  assert (Hinv : NoDup (map entry_topic (webhookRegistry w))).
  { induction Hreach as [w0 Hempty|w0 options Hreach IH].
    - rewrite Hempty. constructor.
    - apply register_keeps_topics_unique. exact IH. }
  split; [exact Hinv|].
  intros o1 o2 r1 r2 w1 w2 Htopic H1 S1 H2 S2.
  assert (E2 : webhookRegistry w2 = upsert o2 (webhookRegistry w1)).
  { pose proof (register_registry_on_success o2 w1) as R.
    rewrite H2 in R. cbn [fst snd reportsSuccess] in R. exact (R S2). }
  rewrite E2. split; [apply upsert_single|].
  apply upsert_NoDup.
  replace w1 with (snd (registerC o1 w)) by (rewrite H1; reflexivity).
  apply register_keeps_topics_unique. exact Hinv.
Qed.

(** C7.  When the existence check resolves to a body whose subscription
    (the one [edges[0]] holds; the query asks for the first match only)
    has the target address ["https://" ++ HOST_NAME ++ path] as callback
    address, [register] sends the check query and nothing else, so no
    upsert mutation reaches the transport, and returns success with the
    empty object as result; the store takes the new entry. *)
Theorem register_skips_mutation_when_registered
    (options : RegisterOptions Handler) (w : W)
    (checkResult : JSON) (n1 : Network) (checkBody : WebhookCheckResponse)
    (e : WebhookCheckResponseNode) (rest : list WebhookCheckResponseNode) :
  client_query (shop options) (accessToken options)
    (buildCheckQuery (topic options)) (network w) = (inr checkResult, n1) ->
  asWebhookCheckResponse checkResult = Some checkBody ->
  edges (webhookSubscriptions (data checkBody)) = e :: rest ->
  callbackUrl (node e) = "https://" ++ HOST_NAME Context ++ path options ->
  registerC options w
  = (Normal (mkRegisterReturn true (JObject [])),
     mkWorld (upsert options (webhookRegistry w)) n1
       (trace w
          ++ [QuerySent (shop options) (accessToken options)
                (buildCheckQuery (topic options))])%list).
Proof.
  intros Hq Hcast Hedges Hurl.
  rewrite register_run. cbv zeta. rewrite Hq, Hcast.
  unfold alreadyRegistered, targetAddress. rewrite Hedges, Hurl.
  rewrite String.eqb_refl. reflexivity.
Qed.

(** C8.  The store changes only when [register] reports success: whenever
    the call does not return [success = true] the store is the one before
    the call.  A rejected query, be it the existence check or the
    mutation, surfaces to the caller as that very rejection; the query was
    sent once and nothing was sent after it.  A mutation response without
    the expected success node leaves the store as it was. *)
Theorem register_store_changes_only_on_success
    (options : RegisterOptions Handler) (w : W) :
  let checkQuery := buildCheckQuery (topic options) in
  let sentCheck := QuerySent (shop options) (accessToken options) checkQuery in
  (reportsSuccess (fst (registerC options w)) = false ->
   webhookRegistry (snd (registerC options w)) = webhookRegistry w)
  /\ (forall reason n1,
        client_query (shop options) (accessToken options) checkQuery (network w)
        = (inl reason, n1) ->
        registerC options w
        = (Abrupt (RequestError reason),
           mkWorld (webhookRegistry w) n1 (trace w ++ [sentCheck])%list))
  /\ (forall checkResult n1 checkBody,
        client_query (shop options) (accessToken options) checkQuery (network w)
        = (inr checkResult, n1) ->
        asWebhookCheckResponse checkResult = Some checkBody ->
        alreadyRegistered checkBody (targetAddress Context options) = false ->
        let mutation :=
          buildQuery (topic options) (targetAddress Context options)
            (methodOf options) (existingId checkBody) in
        let sentMutation :=
          QuerySent (shop options) (accessToken options) mutation in
        (forall reason n2,
           client_query (shop options) (accessToken options) mutation n1
           = (inl reason, n2) ->
           registerC options w
           = (Abrupt (RequestError reason),
              mkWorld (webhookRegistry w) n2
                (trace w ++ [sentCheck; sentMutation])%list))
        /\ (forall result n2,
              client_query (shop options) (accessToken options) mutation n1
              = (inr result, n2) ->
              hasSubscriptionNode result
                (specMutationName (methodOf options)
                   (truthy (existingId checkBody))) = false ->
              reportsSuccess (fst (registerC options w)) = false
              /\ snd (registerC options w)
                 = mkWorld (webhookRegistry w) n2
                     (trace w ++ [sentCheck; sentMutation])%list)).
Proof.
  cbv zeta. split; [apply register_registry_on_failure|]. split.
  - intros reason n1 Hq. rewrite register_run. cbv zeta. rewrite Hq. reflexivity.
  - intros checkResult n1 checkBody Hq Hcast Hnot. split.
    + intros reason n2 Hm. rewrite register_run. cbv zeta.
      rewrite Hq, Hcast, Hnot, Hm, <- app_assoc. reflexivity.
    + intros result n2 Hm Hnode. rewrite register_run. cbv zeta.
      rewrite Hq, Hcast, Hnot, Hm, isSuccess_node, Hnode, <- app_assoc.
      destruct result; split; reflexivity.
Qed.

(** C9.  The mutation text and the success decision go by the same
    mutation name.  Without an identifier the text built for the HTTP
    method calls [webhookSubscriptionCreate] and for the event-bus method
    [eventBridgeWebhookSubscriptionCreate]; with a (non-empty) identifier
    it calls [webhookSubscriptionUpdate], respectively
    [eventBridgeWebhookSubscriptionUpdate]; the address goes in the
    [callbackUrl] argument for HTTP and in the [arn] argument for the
    event bus.  [isSuccess] answers true exactly when the response holds
    the [webhookSubscription] node under that same name, and a [register]
    that issues the mutation reports success exactly then. *)
Theorem mutation_and_success_keyed_alike
    (t address : string) (m : DeliveryMethod) (i : string) :
  i <> EmptyString ->
  buildQuery t address m None
  = mutationText (specMutationName m false) ("topic: " ++ t)
      (specArgument m) address
  /\ buildQuery t address m (Some i)
     = mutationText (specMutationName m true)
         ("id: " ++ dquote ++ i ++ dquote) (specArgument m) address
  /\ (forall result,
        (isSuccess result m None = Normal true <->
         hasSubscriptionNode result (specMutationName m false) = true)
        /\ (isSuccess result m (Some i) = Normal true <->
            hasSubscriptionNode result (specMutationName m true) = true))
  /\ (forall (options : RegisterOptions Handler) (w : W)
        checkResult n1 checkBody result n2,
        client_query (shop options) (accessToken options)
          (buildCheckQuery (topic options)) (network w)
        = (inr checkResult, n1) ->
        asWebhookCheckResponse checkResult = Some checkBody ->
        alreadyRegistered checkBody (targetAddress Context options) = false ->
        client_query (shop options) (accessToken options)
          (buildQuery (topic options) (targetAddress Context options)
             (methodOf options) (existingId checkBody)) n1
        = (inr result, n2) ->
        (reportsSuccess (fst (registerC options w)) = true <->
         hasSubscriptionNode result
           (specMutationName (methodOf options)
              (truthy (existingId checkBody))) = true)).
Proof.
  intros Hi.
  assert (Ti : truthy (Some i) = true)
    by (destruct i; [contradiction Hi; reflexivity|reflexivity]).
  split.
  { unfold buildQuery, mutationText. cbn [truthy].
    destruct m; cbn [specMutationName specArgument];
      rewrite !append_assoc; reflexivity. }
  split.
  { unfold buildQuery, mutationText. rewrite Ti. cbn [asString].
    destruct m; cbn [specMutationName specArgument];
      rewrite !append_assoc; reflexivity. }
  split.
  - intros result. split.
    + apply (isSuccess_true_iff result m None).
    + pose proof (isSuccess_true_iff result m (Some i)) as Hiff.
      rewrite Ti in Hiff. exact Hiff.
  - intros options w checkResult n1 checkBody result n2 Hq Hcast Hnot Hm.
    rewrite register_run. cbv zeta. rewrite Hq, Hcast, Hnot, Hm.
    pose proof (isSuccess_true_iff result (methodOf options)
                  (existingId checkBody)) as Hiff.
    destruct (isSuccess result (methodOf options) (existingId checkBody))
      as [[|]|e]; cbn [fst reportsSuccess success].
    + split; intros _; [apply Hiff|]; reflexivity.
    + split; intros H; [discriminate H|]. apply Hiff in H. discriminate H.
    + split; intros H; [discriminate H|]. apply Hiff in H. discriminate H.
Qed.

(** *** Verification and the end-to-end run *)

Lemma find_upsert (options : RegisterOptions Handler)
    (reg : list (WebhookRegistryEntry Handler)) :
  find (fun e => entry_topic e =? topic options) (upsert options reg)
  = Some (entryOf options).
Proof.
  unfold upsert.
  induction reg as [|e reg IH].
  - cbn [filter app find entryOf entry_topic]. rewrite String.eqb_refl.
    reflexivity.
  - cbn [filter]. destruct (entry_topic e =? topic options) eqn:E;
      cbn [negb]; [exact IH|].
    cbn [app find]. rewrite E. exact IH.
Qed.

(** C2, as the code has it.  Let the topic and domain headers be read with
    non-empty values and let the registry hold an entry for the canonical
    topic, so that acceptance shows as the "ok" status.  Then for every
    secret, body and provided signature, [process] accepts the signature
    exactly when it equals base64(HMAC-SHA256(secret, b')), where b' is
    the UTF-8 encoding of the body decoded as UTF-8.  For a body that is
    well-formed UTF-8, b' is the body itself: the signature is then
    accepted exactly when it is the reference signature over the exact
    bytes of the body. *)
Theorem process_accepts_signature_of_decoded_body
    (options : ProcessOptions) (w : W) (hmac topic domain : string)
    (e : WebhookRegistryEntry Handler) :
  readHeadersC (headers options) = (Some hmac, Some topic, Some domain) ->
  truthyString topic = true ->
  truthyString domain = true ->
  find (fun e' => entry_topic e' =? canonicalTopic toUpperCase topic)
    (webhookRegistry w) = Some e ->
  (fst (processC options w) = Normal (mkProcessReturn Ok []) <->
   hmac = Crypto.base64
            (Crypto.hmac_sha256 (utf8_bytes (API_SECRET_KEY Context))
               (utf8_bytes (toString_utf8 (body options)))))
  /\ (Utf8.wellFormed (body options) ->
      (fst (processC options w) = Normal (mkProcessReturn Ok []) <->
       hmac = referenceSignature (API_SECRET_KEY Context) (body options))).
Proof.
  intros Hread Ht Hd Hfind.
  assert (Hmain :
    fst (processC options w) = Normal (mkProcessReturn Ok []) <->
    hmac = generatedHash (API_SECRET_KEY Context) (body options)).
  { destruct (truthyString hmac) eqn:Hh.
    - rewrite (process_present options w hmac topic domain Hread Hh Ht Hd).
      cbv zeta. rewrite Hfind.
      destruct (String.eqb_spec
                  (generatedHash (API_SECRET_KEY Context) (body options)) hmac)
        as [E|E]; cbn [fst].
      + split; intros _; [symmetry; exact E|reflexivity].
      + split; intros H; [discriminate H|]. symmetry in H. contradiction.
    - destruct hmac; [|discriminate Hh].
      rewrite (process_missing options w (Hmac ShopifyHeader) []).
      + cbn [fst]. split; intros H; [discriminate H|].
        exfalso. symmetry in H. revert H. apply base64_hmac_nonempty.
      + rewrite Hread. unfold missingHeaders. cbn [truthy truthyString].
        rewrite Ht, Hd. reflexivity. }
  split; [exact Hmain|].
  intros Hwf. rewrite Hmain. unfold generatedHash, referenceSignature.
  rewrite (toString_wellFormed _ Hwf). reflexivity.
Qed.

(** C1, as the code has it.  The store is keyed by the topic as it is
    given to [register], and [process] looks up the canonical form of the
    topic header.  So: if [register] is called with topic [ORDERS_CREATE],
    a handler H and a path giving address [https://host/cb], the existence
    check returns no prior subscription and the mutation response holds the
    expected success node, then [register] reports success and a
    [process] call that follows, whose headers carry topic
    [orders/create], the reference signature over the body [{"id":1}] and
    domain [shop.example.com], invokes H with [ORDERS_CREATE],
    [shop.example.com] and the bytes of the body, and returns "ok". *)
Theorem register_then_process_dispatches
    (options : RegisterOptions Handler) (w : W)
    (checkResult : JSON) (n1 : Network) (checkBody : WebhookCheckResponse)
    (result : JSON) (n2 : Network) (request : ProcessOptions) (hmac : string) :
  topic options = "ORDERS_CREATE" ->
  targetAddress Context options = "https://host/cb" ->
  client_query (shop options) (accessToken options)
    (buildCheckQuery "ORDERS_CREATE") (network w) = (inr checkResult, n1) ->
  asWebhookCheckResponse checkResult = Some checkBody ->
  edges (webhookSubscriptions (data checkBody)) = [] ->
  client_query (shop options) (accessToken options)
    (buildQuery "ORDERS_CREATE" "https://host/cb" (methodOf options) None) n1
  = (inr result, n2) ->
  hasSubscriptionNode result (specMutationName (methodOf options) false)
  = true ->
  toUpperCase "orders/create" = "ORDERS/CREATE" ->
  body request = bodyId1 ->
  readHeadersC (headers request)
  = (Some hmac, Some "orders/create", Some "shop.example.com") ->
  hmac = referenceSignature (API_SECRET_KEY Context) bodyId1 ->
  exists w1 w2,
    registerC options w = (Normal (mkRegisterReturn true result), w1)
    /\ processC request w1 = (Normal (mkProcessReturn Ok []), w2)
    /\ trace w2
       = (trace w1
            ++ [HmacComputed (API_SECRET_KEY Context) (toString_utf8 bodyId1);
                Compared hmac hmac;
                HandlerInvoked (webhookHandler options) "ORDERS_CREATE"
                  "shop.example.com" bodyId1])%list.
Proof.
  intros Htopic Haddr Hq Hcast Hedges Hm Hnode Hupper Hbody Hread Hsig.
  assert (Hgen : generatedHash (API_SECRET_KEY Context) bodyId1 = hmac).
  { rewrite Hsig. unfold generatedHash, referenceSignature.
    replace (utf8_bytes (toString_utf8 bodyId1)) with bodyId1
      by (vm_compute; reflexivity).
    reflexivity. }
  assert (Hh : truthyString hmac = true).
  { destruct hmac; [|reflexivity]. exfalso.
    revert Hsig. unfold referenceSignature.
    intros Hsig. symmetry in Hsig. revert Hsig. apply base64_hmac_nonempty. }
  pose proof (register_run options w) as Hrun. cbv zeta in Hrun.
  rewrite Htopic, Hq, Hcast in Hrun.
  unfold alreadyRegistered, existingId in Hrun. rewrite Hedges in Hrun.
  rewrite Haddr, Hm in Hrun.
  rewrite isSuccess_node in Hrun. cbn [truthy] in Hrun.
  assert (Hres : match result with
                 | JUndefined | JNull => Abrupt TypeError
                 | _ => Normal (hasSubscriptionNode result
                                  (specMutationName (methodOf options) false))
                 end = Normal true).
  { destruct result; cbn [hasSubscriptionNode] in Hnode;
      try discriminate Hnode.
    cbn [hasSubscriptionNode]. rewrite Hnode. reflexivity. }
  rewrite Hres in Hrun.
  eexists; eexists. split; [exact Hrun|].
  rewrite (process_present request _ hmac "orders/create" "shop.example.com"
             Hread Hh eq_refl eq_refl).
  cbv zeta. rewrite Hbody, Hgen, String.eqb_refl.
  cbn [webhookRegistry].
  unfold canonicalTopic. rewrite Hupper.
  change (replaceSlashes "ORDERS/CREATE") with "ORDERS_CREATE".
  pose proof (find_upsert options (webhookRegistry w)) as Hf.
  rewrite Htopic in Hf. rewrite Hf.
  cbn [entryOf entry_webhookHandler]. split; [reflexivity|].
  unfold afterVerification. cbn [trace]. rewrite Hgen.
  rewrite <- !app_assoc. reflexivity.
Qed.

(** ** Further properties of the registry *)

(** *** Helpers *)

Lemma truthy_nonempty (s : string) : s <> EmptyString -> truthyString s = true.
Proof. destruct s; [intros H; contradiction H; reflexivity|reflexivity]. Qed.

Lemma invocations_app (a b : list (Event Handler)) :
  invocations (a ++ b) = (invocations a ++ invocations b)%list.
Proof. unfold invocations. apply flat_map_app. Qed.

Lemma carried_hmac (hs : Headers) (v : string) :
  carries toLowerCase (Hmac ShopifyHeader) hs v ->
  fst (fst (readHeadersC hs)) = Some v.
Proof.
  intros (pre & k & post & -> & Hk & Hlow & Habs). unfold readHeaders.
  rewrite fold_left_app. cbn [fold_left].
  destruct (fold_left (readHeader toLowerCase ShopifyHeader) pre
              (None, None, None)) as [[h0 t0] d0].
  unfold readHeader at 2.
  rewrite (truthy_nonempty k Hk), Hlow, String.eqb_refl.
  apply readHeader_hmac_absent. exact Habs.
Qed.

Lemma carried_topic (hs : Headers) (v : string) :
  distinctNames toLowerCase ShopifyHeader ->
  carries toLowerCase (Topic ShopifyHeader) hs v ->
  snd (fst (readHeadersC hs)) = Some v.
Proof.
  intros (Hht & _ & _) (pre & k & post & -> & Hk & Hlow & Habs).
  unfold readHeaders. rewrite fold_left_app. cbn [fold_left].
  destruct (fold_left (readHeader toLowerCase ShopifyHeader) pre
              (None, None, None)) as [[h0 t0] d0].
  unfold readHeader at 2.
  rewrite (truthy_nonempty k Hk), Hlow, String.eqb_refl.
  apply not_eq_sym in Hht. apply String.eqb_neq in Hht. rewrite Hht.
  apply readHeader_topic_absent. exact Habs.
Qed.

Lemma carried_domain (hs : Headers) (v : string) :
  distinctNames toLowerCase ShopifyHeader ->
  carries toLowerCase (Domain ShopifyHeader) hs v ->
  snd (readHeadersC hs) = Some v.
Proof.
  intros (_ & Hhd & Htd) (pre & k & post & -> & Hk & Hlow & Habs).
  unfold readHeaders. rewrite fold_left_app. cbn [fold_left].
  destruct (fold_left (readHeader toLowerCase ShopifyHeader) pre
              (None, None, None)) as [[h0 t0] d0].
  unfold readHeader at 2.
  rewrite (truthy_nonempty k Hk), Hlow, String.eqb_refl.
  apply not_eq_sym in Hhd. apply String.eqb_neq in Hhd. rewrite Hhd.
  apply not_eq_sym in Htd. apply String.eqb_neq in Htd. rewrite Htd.
  apply readHeader_domain_absent. exact Habs.
Qed.

(** Where a signature that was read comes from. *)
Lemma read_hmac_source (hs : Headers) : forall h t d s,
  fst (fst (fold_left (readHeader toLowerCase ShopifyHeader) hs (h, t, d)))
  = Some s ->
  h = Some s
  \/ exists k, In (k, s) hs /\ k <> EmptyString
                /\ toLowerCase k = toLowerCase (Hmac ShopifyHeader).
Proof.
  induction hs as [|[k v] hs IH]; intros h t d s Hread.
  - left. exact Hread.
  - cbn [fold_left] in Hread. unfold readHeader at 2 in Hread.
    assert (Hlater : forall k', (exists k0, In (k0, s) hs /\ k0 <> EmptyString
                       /\ toLowerCase k0 = toLowerCase (Hmac ShopifyHeader)) ->
              exists k0, In (k0, s) ((k', v) :: hs) /\ k0 <> EmptyString
                /\ toLowerCase k0 = toLowerCase (Hmac ShopifyHeader)).
    { intros k' (k0 & Hin & Hne & Hl). exists k0.
      split; [right; exact Hin|split; assumption]. }
    destruct k as [|c k]; cbn [truthyString] in Hread.
    { destruct (IH _ _ _ _ Hread) as [E|E]; [left; exact E|right; auto]. }
    destruct (String.eqb_spec (toLowerCase (String c k))
                (toLowerCase (Hmac ShopifyHeader))) as [El|El].
    { destruct (IH _ _ _ _ Hread) as [E|E]; [|right; auto].
      right. exists (String c k). injection E as ->.
      split; [left; reflexivity|split; [discriminate|exact El]]. }
    destruct (toLowerCase (String c k) =? toLowerCase (Topic ShopifyHeader)).
    { destruct (IH _ _ _ _ Hread) as [E|E]; [left; exact E|right; auto]. }
    destruct (toLowerCase (String c k) =? toLowerCase (Domain ShopifyHeader));
      destruct (IH _ _ _ _ Hread) as [E|E];
      solve [left; exact E|right; auto].
Qed.

Lemma missing_none (h t d : option string) :
  missingHeadersC (h, t, d) = [] ->
  exists hmac topic domain,
    h = Some hmac /\ t = Some topic /\ d = Some domain
    /\ truthyString hmac = true /\ truthyString topic = true
    /\ truthyString domain = true.
Proof.
  unfold missingHeaders.
  destruct h as [hmac|], t as [topic|], d as [domain|]; cbn [truthy];
    try discriminate;
    destruct (truthyString hmac) eqn:Eh; try discriminate;
    destruct (truthyString topic) eqn:Et; try discriminate;
    destruct (truthyString domain) eqn:Ed; try discriminate.
  intros _. exists hmac, topic, domain. repeat split; assumption.
Qed.

(** Every call of [process] ends in one of two ways. *)
Lemma process_cases (options : ProcessOptions) (w : W) :
  (exists m ms,
      processC options w
      = (Abrupt (InvalidWebhookError (missingMessage (m :: ms))), w))
  \/ (exists hmac topic domain,
        readHeadersC (headers options) = (Some hmac, Some topic, Some domain)
        /\ truthyString hmac = true
        /\ processC options w
           = let secret := API_SECRET_KEY Context in
             let w1 := afterVerification w secret (body options) hmac in
             if generatedHash secret (body options) =? hmac then
               match find
                       (fun e => entry_topic e =? canonicalTopic toUpperCase topic)
                       (webhookRegistry w) with
               | Some e =>
                   (Normal (mkProcessReturn Ok []),
                    mkWorld (webhookRegistry w) (network w)
                      (trace w1
                         ++ [HandlerInvoked (entry_webhookHandler e)
                               (canonicalTopic toUpperCase topic) domain
                               (body options)])%list)
               | None => (Normal (mkProcessReturn Forbidden []), w1)
               end
             else (Normal (mkProcessReturn Forbidden []), w1)).
Proof.
  destruct (missingHeadersC (readHeadersC (headers options))) as [|m ms] eqn:Hm.
  - right. destruct (readHeadersC (headers options)) as [[h t] d] eqn:Hread.
    destruct (missing_none h t d Hm)
      as (hmac & topic & domain & -> & -> & -> & Hh & Ht & Hd).
    exists hmac, topic, domain. split; [reflexivity|]. split; [exact Hh|].
    apply process_present; assumption.
  - left. exists m, ms. apply process_missing. exact Hm.
Qed.

Lemma read_carried (hs : Headers) (s t d : string) :
  distinctNames toLowerCase ShopifyHeader ->
  carries toLowerCase (Hmac ShopifyHeader) hs s ->
  carries toLowerCase (Topic ShopifyHeader) hs t ->
  carries toLowerCase (Domain ShopifyHeader) hs d ->
  readHeadersC hs = (Some s, Some t, Some d).
Proof.
  intros (Hht & Hhd & Htd) Cs Ct Cd.
  apply readHeaders_carries; assumption.
Qed.

Lemma find_first (f : WebhookRegistryEntry Handler -> bool)
    (pre post : list (WebhookRegistryEntry Handler))
    (e : WebhookRegistryEntry Handler) :
  (forall e', In e' pre -> f e' = false) -> f e = true ->
  find f (pre ++ e :: post) = Some e.
Proof.
  intros Hpre He. induction pre as [|a pre IH].
  - cbn [app find]. rewrite He. reflexivity.
  - cbn [app find]. rewrite (Hpre a (or_introl eq_refl)).
    apply IH. intros e' Hin. apply Hpre. right. exact Hin.
Qed.

Lemma replaceSlashes_no_slash (s : string) :
  hasSlash (replaceSlashes s) = false.
Proof.
  induction s as [|c s IH]; [reflexivity|].
  cbn [replaceSlashes hasSlash]. rewrite IH.
  destruct (Ascii.eqb c "/") eqn:E; [reflexivity|].
  rewrite E. reflexivity.
Qed.

(** *** Dispatch *)

(** X1.  A request that carries the three headers (names matched up to
    letter case, the last match counting) with the signature [process]
    computes for its body is dispatched to the first entry of the registry
    whose topic is the canonical form of the topic header: that entry's
    handler is invoked once, with the canonical topic, the domain header
    and the request's own body, after the HMAC computation and the
    comparison; the status is "ok" and registry and network are as
    before. *)
Theorem process_dispatches_to_first_entry
    (options : ProcessOptions) (w : W) (s t d : string)
    (pre post : list (WebhookRegistryEntry Handler))
    (e : WebhookRegistryEntry Handler) :
  distinctNames toLowerCase ShopifyHeader ->
  carries toLowerCase (Hmac ShopifyHeader) (headers options) s ->
  carries toLowerCase (Topic ShopifyHeader) (headers options) t ->
  carries toLowerCase (Domain ShopifyHeader) (headers options) d ->
  t <> EmptyString ->
  d <> EmptyString ->
  s = generatedHash (API_SECRET_KEY Context) (body options) ->
  webhookRegistry w = (pre ++ e :: post)%list ->
  entry_topic e = canonicalTopic toUpperCase t ->
  (forall e', In e' pre -> entry_topic e' <> canonicalTopic toUpperCase t) ->
  processC options w
  = (Normal (mkProcessReturn Ok []),
     mkWorld (webhookRegistry w) (network w)
       (trace w
          ++ [HmacComputed (API_SECRET_KEY Context)
                (toString_utf8 (body options));
              Compared s s;
              HandlerInvoked (entry_webhookHandler e)
                (canonicalTopic toUpperCase t) d (body options)])%list).
Proof.
  intros Hdist Cs Ct Cd Ht Hd Hs Hreg He Hpre.
  assert (Hh : truthyString s = true).
  { apply truthy_nonempty. rewrite Hs. unfold generatedHash.
    apply base64_hmac_nonempty. }
  rewrite (process_present options w s t d
             (read_carried _ s t d Hdist Cs Ct Cd) Hh
             (truthy_nonempty t Ht) (truthy_nonempty d Hd)).
  cbv zeta. rewrite <- Hs, String.eqb_refl.
  assert (Hfind : find (fun e0 => entry_topic e0 =? canonicalTopic toUpperCase t)
                    (webhookRegistry w) = Some e).
  { rewrite Hreg. apply find_first.
    - intros e' Hin. apply String.eqb_neq. apply Hpre. exact Hin.
    - apply String.eqb_eq. exact He. }
  rewrite Hfind. unfold afterVerification. cbn [trace].
  rewrite <- Hs, <- !app_assoc. reflexivity.
Qed.

(** X2.  [process] answers "ok", or invokes a handler, only for a request
    that has a header, named as the signature header up to letter case,
    whose value is the signature computed from the request's body and the
    secret. *)
Theorem process_dispatch_requires_signature
    (options : ProcessOptions) (w : W) :
  (exists r, fst (processC options w) = Normal r /\ statusCode r = Ok)
  \/ invocations (trace (snd (processC options w))) <> invocations (trace w) ->
  exists k,
    In (k, generatedHash (API_SECRET_KEY Context) (body options))
      (headers options)
    /\ k <> EmptyString
    /\ toLowerCase k = toLowerCase (Hmac ShopifyHeader).
Proof.
  intros Hdone.
  destruct (process_cases options w)
    as [(m & ms & Hrun)|(hmac & topic & domain & Hread & Hh & Hrun)].
  - exfalso. rewrite Hrun in Hdone. cbn [fst snd] in Hdone.
    destruct Hdone as [(r & Hr & _)|Hinv]; [discriminate Hr|].
    apply Hinv. reflexivity.
  - cbv zeta in Hrun.
    destruct (String.eqb_spec
                (generatedHash (API_SECRET_KEY Context) (body options)) hmac)
      as [E|E].
    + pose proof (read_hmac_source (headers options) None None None hmac) as Hsrc.
      fold (readHeadersC (headers options)) in Hsrc. rewrite Hread in Hsrc.
      destruct (Hsrc eq_refl) as [Hnone|Hk]; [discriminate Hnone|].
      rewrite E. exact Hk.
    + exfalso. rewrite Hrun in Hdone. cbn [fst snd] in Hdone.
      destruct Hdone as [(r & Hr & Hok)|Hinv].
      * injection Hr as <-. discriminate Hok.
      * apply Hinv. unfold afterVerification. cbn [trace].
        rewrite !invocations_app. cbn [invocations flat_map app].
        rewrite !app_nil_r. reflexivity.
Qed.

(** X3.  Whatever the request, [process] leaves the registry and the
    network as they were and sends no query.  Its calls are none at all
    (a required header is missing), or one HMAC computation over the
    decoded body followed by one comparison against the computed
    signature, followed by at most one handler invocation, which is given
    the request's own body. *)
Theorem process_call_discipline (options : ProcessOptions) (w : W) :
  webhookRegistry (snd (processC options w)) = webhookRegistry w
  /\ network (snd (processC options w)) = network w
  /\ (trace (snd (processC options w)) = trace w
      \/ exists provided,
           let verification :=
             [HmacComputed (API_SECRET_KEY Context)
                (toString_utf8 (body options));
              Compared (generatedHash (API_SECRET_KEY Context) (body options))
                provided] in
           trace (snd (processC options w)) = (trace w ++ verification)%list
           \/ exists h t d,
                trace (snd (processC options w))
                = (trace w ++ verification
                     ++ [HandlerInvoked h t d (body options)])%list).
Proof.
  destruct (process_cases options w)
    as [(m & ms & Hrun)|(hmac & topic & domain & Hread & Hh & Hrun)];
    rewrite Hrun; clear Hrun.
  - cbn [snd]. repeat split. left. reflexivity.
  - cbv zeta.
    destruct (generatedHash (API_SECRET_KEY Context) (body options) =? hmac).
    + destruct (find _ (webhookRegistry w)) as [e|];
        unfold afterVerification; cbn [snd webhookRegistry network trace];
        (split; [reflexivity|]); (split; [reflexivity|]);
        right; exists hmac.
      * right. exists (entry_webhookHandler e),
          (canonicalTopic toUpperCase topic), domain.
        rewrite <- !app_assoc. reflexivity.
      * left. rewrite <- !app_assoc. reflexivity.
    + unfold afterVerification; cbn [snd webhookRegistry network trace].
      split; [reflexivity|]. split; [reflexivity|].
      right; exists hmac. left. rewrite <- !app_assoc. reflexivity.
Qed.

(** X4.  A required header that the request carries with the empty string
    as value counts as missing: [process] raises the missing-headers
    error, the message lists that header, and nothing is computed or
    invoked. *)
Theorem process_empty_value_is_missing (options : ProcessOptions) (w : W) :
  distinctNames toLowerCase ShopifyHeader ->
  carries toLowerCase (Hmac ShopifyHeader) (headers options) EmptyString
  \/ carries toLowerCase (Topic ShopifyHeader) (headers options) EmptyString
  \/ carries toLowerCase (Domain ShopifyHeader) (headers options) EmptyString ->
  exists missing,
    processC options w
    = (Abrupt (InvalidWebhookError (missingMessage missing)), w)
    /\ (carries toLowerCase (Hmac ShopifyHeader) (headers options) EmptyString ->
        In (Hmac ShopifyHeader) missing)
    /\ (carries toLowerCase (Topic ShopifyHeader) (headers options) EmptyString ->
        In (Topic ShopifyHeader) missing)
    /\ (carries toLowerCase (Domain ShopifyHeader) (headers options) EmptyString ->
        In (Domain ShopifyHeader) missing).
Proof.
  intros Hdist Hcar.
  pose proof (carried_hmac (headers options) EmptyString) as Eh.
  pose proof (carried_topic (headers options) EmptyString Hdist) as Et.
  pose proof (carried_domain (headers options) EmptyString Hdist) as Ed.
  exists (missingHeadersC (readHeadersC (headers options))).
  destruct (readHeadersC (headers options)) as [[h t] d] eqn:Hread.
  cbn [fst snd] in Eh, Et, Ed.
  assert (Hin :
    (carries toLowerCase (Hmac ShopifyHeader) (headers options) EmptyString ->
     In (Hmac ShopifyHeader) (missingHeadersC (h, t, d)))
    /\ (carries toLowerCase (Topic ShopifyHeader) (headers options) EmptyString ->
        In (Topic ShopifyHeader) (missingHeadersC (h, t, d)))
    /\ (carries toLowerCase (Domain ShopifyHeader) (headers options) EmptyString ->
        In (Domain ShopifyHeader) (missingHeadersC (h, t, d)))).
  { unfold missingHeaders. repeat split; intros A.
    - rewrite (Eh A). cbn. left; reflexivity.
    - rewrite (Et A). apply in_or_app; right. cbn. left; reflexivity.
    - rewrite (Ed A). apply in_or_app; right. apply in_or_app; right.
      cbn. left; reflexivity. }
  destruct (missingHeadersC (h, t, d)) as [|m ms] eqn:Hm.
  - exfalso. destruct Hin as (I1 & I2 & I3).
    destruct Hcar as [A|[A|A]]; [apply (I1 A)|apply (I2 A)|apply (I3 A)].
  - split; [|exact Hin]. apply process_missing. rewrite Hread. exact Hm.
Qed.

(** X5.  Every handler invocation [process] makes comes from an entry of
    the registry and is made under that entry's topic, a topic that holds
    no ["/"]: an entry stored under a topic with a ["/"] in it is never
    dispatched to. *)
Theorem process_invokes_slash_free_entries
    (options : ProcessOptions) (w : W)
    (h : Handler) (t d : string) (b : Buffer) :
  In (h, t, d, b) (invocations (trace (snd (processC options w)))) ->
  In (h, t, d, b) (invocations (trace w))
  \/ (hasSlash t = false
      /\ b = body options
      /\ exists e, In e (webhookRegistry w)
                   /\ entry_topic e = t /\ entry_webhookHandler e = h).
Proof.
  intros Hin.
  destruct (process_cases options w)
    as [(m & ms & Hrun)|(hmac & topic & domain & Hread & Hh & Hrun)];
    rewrite Hrun in Hin; clear Hrun.
  - left. exact Hin.
  - cbv zeta in Hin.
    destruct (generatedHash (API_SECRET_KEY Context) (body options) =? hmac).
    + destruct (find _ (webhookRegistry w)) as [e|] eqn:Hfind;
        unfold afterVerification in Hin; cbn [snd trace] in Hin;
        rewrite !invocations_app in Hin;
        cbn [invocations flat_map app] in Hin; rewrite ?app_nil_r in Hin.
      * apply in_app_or in Hin. destruct Hin as [Hin|[Hin|[]]];
          [left; exact Hin|].
        injection Hin as <- <- <- <-. right.
        split; [apply replaceSlashes_no_slash|]. split; [reflexivity|].
        apply find_some in Hfind. destruct Hfind as [He Ht].
        exists e. split; [exact He|]. split; [|reflexivity].
        apply String.eqb_eq. exact Ht.
      * left. exact Hin.
    + unfold afterVerification in Hin; cbn [snd trace] in Hin.
      rewrite !invocations_app in Hin.
      cbn [invocations flat_map app] in Hin. rewrite ?app_nil_r in Hin.
      left. exact Hin.
Qed.

(** *** Registration and the store *)

Lemma filter_other_topic (t t' : string)
    (reg : list (WebhookRegistryEntry Handler)) :
  t' <> t ->
  filter (fun e => entry_topic e =? t')
    (filter (fun item => negb (entry_topic item =? t)) reg)
  = filter (fun e => entry_topic e =? t') reg.
Proof.
  intros Hne. induction reg as [|e reg IH]; [reflexivity|].
  cbn [filter]. destruct (entry_topic e =? t) eqn:Et; cbn [negb].
  - apply String.eqb_eq in Et.
    assert (E' : (entry_topic e =? t') = false)
      by (apply String.eqb_neq; congruence).
    rewrite E'. exact IH.
  - cbn [filter]. destruct (entry_topic e =? t'); [f_equal|]; exact IH.
Qed.

Lemma upsert_other_topic (options : RegisterOptions Handler) (t' : string)
    (reg : list (WebhookRegistryEntry Handler)) :
  t' <> topic options ->
  filter (fun e => entry_topic e =? t') (upsert options reg)
  = filter (fun e => entry_topic e =? t') reg.
Proof.
  intros Hne. unfold upsert. rewrite filter_app, filter_other_topic by exact Hne.
  cbn [filter entryOf entry_topic].
  assert (E : (topic options =? t') = false)
    by (apply String.eqb_neq; congruence).
  rewrite E. apply app_nil_r.
Qed.

Lemma filter_twice (f : WebhookRegistryEntry Handler -> bool)
    (reg : list (WebhookRegistryEntry Handler)) :
  filter f (filter f reg) = filter f reg.
Proof.
  induction reg as [|e reg IH]; [reflexivity|].
  cbn [filter]. destruct (f e) eqn:E; [|exact IH].
  cbn [filter]. rewrite E, IH. reflexivity.
Qed.

Lemma upsert_idempotent (options : RegisterOptions Handler)
    (reg : list (WebhookRegistryEntry Handler)) :
  upsert options (upsert options reg) = upsert options reg.
Proof.
  unfold upsert. rewrite filter_app, filter_twice.
  cbn [filter entryOf entry_topic]. rewrite String.eqb_refl. cbn [negb].
  rewrite app_nil_r. reflexivity.
Qed.

Lemma register_registry_cases (options : RegisterOptions Handler) (w : W) :
  webhookRegistry (snd (registerC options w)) = webhookRegistry w
  \/ webhookRegistry (snd (registerC options w))
     = upsert options (webhookRegistry w).
Proof.
  destruct (reportsSuccess (fst (registerC options w))) eqn:E.
  - right. apply register_registry_on_success. exact E.
  - left. apply register_registry_on_failure. exact E.
Qed.

Lemma isWebhookPath_find (p : string) (w : W) :
  fst (isWebhookPath Handler Network p w) = Normal true <->
  exists e, In e (webhookRegistry w) /\ entry_path e = p.
Proof.
  unfold isWebhookPath, bind, getRegistry, ret.
  destruct (find (fun entry => entry_path entry =? p) (webhookRegistry w))
    as [e|] eqn:Hfind; cbn [fst].
  - split; [intros _|reflexivity].
    apply find_some in Hfind. destruct Hfind as [Hin He].
    exists e. split; [exact Hin|apply String.eqb_eq; exact He].
  - split; [discriminate|]. intros (e & Hin & He). exfalso.
    pose proof (find_none _ _ Hfind e Hin) as Hn. cbv beta in Hn.
    apply String.eqb_neq in Hn. exact (Hn He).
Qed.

Lemma buildQuery_text (t address : string) (m : DeliveryMethod)
    (webhookId : option string) :
  buildQuery t address m webhookId
  = mutationText (specMutationName m (truthy webhookId))
      (if truthy webhookId
       then "id: " ++ dquote ++ asString webhookId ++ dquote
       else "topic: " ++ t)
      (specArgument m) address.
Proof.
  unfold buildQuery, mutationText.
  destruct m; destruct (truthy webhookId);
    cbn [specMutationName specArgument]; rewrite !append_assoc; reflexivity.
Qed.

(** X6.  A call of [register], whatever its outcome, leaves the entries
    stored under every other topic as they were, in the same order. *)
Theorem register_leaves_other_topics
    (options : RegisterOptions Handler) (w : W) (t' : string) :
  t' <> topic options ->
  filter (fun e => entry_topic e =? t')
    (webhookRegistry (snd (registerC options w)))
  = filter (fun e => entry_topic e =? t') (webhookRegistry w).
Proof.
  intros Hne.
  destruct (register_registry_cases options w) as [E|E]; rewrite E.
  - reflexivity.
  - apply upsert_other_topic. exact Hne.
Qed.

(** X7.  After a [register] that reports success, the webhook paths are
    the path just registered and the paths of the entries stored under
    the other topics: [isWebhookPath] answers true for exactly these.  A
    path that only the replaced entry had is no webhook path any more. *)
Theorem register_then_isWebhookPath
    (options : RegisterOptions Handler) (w : W) (p : string) :
  reportsSuccess (fst (registerC options w)) = true ->
  (fst (isWebhookPath Handler Network p (snd (registerC options w)))
   = Normal true
   <-> p = path options
       \/ exists e, In e (webhookRegistry w)
                    /\ entry_topic e <> topic options /\ entry_path e = p).
Proof.
  intros Hok. rewrite isWebhookPath_find.
  rewrite (register_registry_on_success options w Hok). unfold upsert.
  split.
  - intros (e & Hin & Hp). apply in_app_or in Hin. destruct Hin as [Hin|[<-|[]]].
    + right. apply filter_In in Hin. destruct Hin as [Hin Hf].
      exists e. split; [exact Hin|]. split; [|exact Hp].
      apply String.eqb_neq. destruct (entry_topic e =? topic options);
        [discriminate Hf|reflexivity].
    + left. symmetry. exact Hp.
  - intros [->|(e & Hin & Ht & Hp)].
    + exists (entryOf options). split; [|reflexivity].
      apply in_or_app. right. left. reflexivity.
    + exists e. split; [|exact Hp]. apply in_or_app. left.
      apply filter_In. split; [exact Hin|].
      apply String.eqb_neq in Ht. rewrite Ht. reflexivity.
Qed.

(** X8.  What [register] stores, [process] finds: after a [register] that
    reports success, a request carrying a topic header whose canonical
    form is the registered topic, the computed signature and a domain is
    dispatched to the handler just registered, whatever handler the topic
    had before. *)
Theorem register_then_process_round_trip
    (options : RegisterOptions Handler) (w : W)
    (request : ProcessOptions) (s t d : string) :
  reportsSuccess (fst (registerC options w)) = true ->
  distinctNames toLowerCase ShopifyHeader ->
  carries toLowerCase (Hmac ShopifyHeader) (headers request) s ->
  carries toLowerCase (Topic ShopifyHeader) (headers request) t ->
  carries toLowerCase (Domain ShopifyHeader) (headers request) d ->
  t <> EmptyString ->
  d <> EmptyString ->
  s = generatedHash (API_SECRET_KEY Context) (body request) ->
  canonicalTopic toUpperCase t = topic options ->
  fst (processC request (snd (registerC options w)))
  = Normal (mkProcessReturn Ok [])
  /\ invocations (trace (snd (processC request (snd (registerC options w)))))
     = (invocations (trace (snd (registerC options w)))
          ++ [(webhookHandler options, topic options, d, body request)])%list.
Proof.
  intros Hok Hdist Cs Ct Cd Ht Hd Hs Hcanon.
  assert (Hh : truthyString s = true).
  { apply truthy_nonempty. rewrite Hs. unfold generatedHash.
    apply base64_hmac_nonempty. }
  rewrite (process_present request _ s t d
             (read_carried _ s t d Hdist Cs Ct Cd) Hh
             (truthy_nonempty t Ht) (truthy_nonempty d Hd)).
  cbv zeta. rewrite <- Hs, String.eqb_refl.
  rewrite (register_registry_on_success options w Hok), Hcanon, find_upsert.
  cbn [fst snd trace entryOf entry_webhookHandler]. split; [reflexivity|].
  unfold afterVerification. cbn [trace].
  rewrite !invocations_app. cbn [invocations flat_map app].
  rewrite !app_nil_r. reflexivity.
Qed.

(** X9.  Whatever the outcome, [register] sends the existence check first
    and at most one mutation after it, both for the shop and with the
    access token of its options; it sends nothing else, computes no HMAC
    and invokes no handler. *)
Theorem register_call_discipline (options : RegisterOptions Handler) (w : W) :
  let sentCheck :=
    QuerySent (shop options) (accessToken options)
      (buildCheckQuery (topic options)) in
  trace (snd (registerC options w)) = (trace w ++ [sentCheck])%list
  \/ exists webhookId,
       trace (snd (registerC options w))
       = (trace w
            ++ [sentCheck;
                QuerySent (shop options) (accessToken options)
                  (buildQuery (topic options) (targetAddress Context options)
                     (methodOf options) webhookId)])%list.
Proof.
  cbv zeta. rewrite register_run. cbv zeta.
  destruct (client_query _ _ _ (network w)) as [[reason|checkResult] n1];
    [left; reflexivity|].
  destruct (asWebhookCheckResponse checkResult) as [checkBody|];
    [|left; reflexivity].
  destruct (alreadyRegistered checkBody _); [left; reflexivity|].
  right. exists (existingId checkBody).
  destruct (client_query _ _ _ n1) as [[reason|result] n2];
    [cbn [snd trace]; rewrite <- app_assoc; reflexivity|].
  destruct (isSuccess result _ _) as [[|]|e];
    cbn [snd trace]; rewrite <- app_assoc; reflexivity.
Qed.

(** X10.  When the existence check shows no subscription at the target
    address, the mutation [register] sends is chosen from what the check
    found: a creation by topic when there is no subscription, an update
    naming the identifier found when there is one under another address;
    an identifier that is the empty string is taken for none, and the
    mutation is then a creation by topic. *)
Theorem register_create_or_update
    (options : RegisterOptions Handler) (w : W)
    (checkResult : JSON) (n1 : Network) (checkBody : WebhookCheckResponse) :
  client_query (shop options) (accessToken options)
    (buildCheckQuery (topic options)) (network w) = (inr checkResult, n1) ->
  asWebhookCheckResponse checkResult = Some checkBody ->
  alreadyRegistered checkBody (targetAddress Context options) = false ->
  let sent (name identifier : string) :=
    (trace w
       ++ [QuerySent (shop options) (accessToken options)
             (buildCheckQuery (topic options));
           QuerySent (shop options) (accessToken options)
             (mutationText name identifier (specArgument (methodOf options))
                (targetAddress Context options))])%list in
  (edges (webhookSubscriptions (data checkBody)) = [] ->
   trace (snd (registerC options w))
   = sent (specMutationName (methodOf options) false)
       ("topic: " ++ topic options))
  /\ (forall e0 rest,
        edges (webhookSubscriptions (data checkBody)) = e0 :: rest ->
        id (node e0) <> EmptyString ->
        trace (snd (registerC options w))
        = sent (specMutationName (methodOf options) true)
            ("id: " ++ dquote ++ id (node e0) ++ dquote))
  /\ (forall e0 rest,
        edges (webhookSubscriptions (data checkBody)) = e0 :: rest ->
        id (node e0) = EmptyString ->
        trace (snd (registerC options w))
        = sent (specMutationName (methodOf options) false)
            ("topic: " ++ topic options)).
Proof.
  intros Hq Hcast Hnot. cbv zeta.
  assert (Htrace :
    trace (snd (registerC options w))
    = (trace w
         ++ [QuerySent (shop options) (accessToken options)
               (buildCheckQuery (topic options));
             QuerySent (shop options) (accessToken options)
               (buildQuery (topic options) (targetAddress Context options)
                  (methodOf options) (existingId checkBody))])%list).
  { rewrite register_run. cbv zeta. rewrite Hq, Hcast, Hnot.
    destruct (client_query _ _ _ n1) as [[reason|result] n2];
      [cbn [snd trace]; rewrite <- app_assoc; reflexivity|].
    destruct (isSuccess result _ _) as [[|]|e];
      cbn [snd trace]; rewrite <- app_assoc; reflexivity. }
  rewrite Htrace, buildQuery_text. unfold existingId.
  split; [|split].
  - intros ->. reflexivity.
  - intros e0 rest -> Hid. cbn [truthy asString].
    rewrite (truthy_nonempty _ Hid). reflexivity.
  - intros e0 rest -> Hid. cbn [truthy asString]. rewrite Hid. reflexivity.
Qed.

(** X11.  [isSuccess] raises a TypeError exactly when the response body is
    [null] or [undefined]; on every other body it answers with a boolean.
    When the mutation resolves to such a body, [register] ends with that
    TypeError after both queries were sent, and the store is as it
    was. *)
Theorem register_null_response_raises
    (options : RegisterOptions Handler) (w : W)
    (checkResult : JSON) (n1 : Network) (checkBody : WebhookCheckResponse)
    (result : JSON) (n2 : Network) :
  client_query (shop options) (accessToken options)
    (buildCheckQuery (topic options)) (network w) = (inr checkResult, n1) ->
  asWebhookCheckResponse checkResult = Some checkBody ->
  alreadyRegistered checkBody (targetAddress Context options) = false ->
  client_query (shop options) (accessToken options)
    (buildQuery (topic options) (targetAddress Context options)
       (methodOf options) (existingId checkBody)) n1
  = (inr result, n2) ->
  (forall m webhookId,
     (isSuccess result m webhookId = Abrupt TypeError <->
      result = JNull \/ result = JUndefined)
     /\ (result <> JNull -> result <> JUndefined ->
         exists b, isSuccess result m webhookId = Normal b))
  /\ (result = JNull \/ result = JUndefined ->
      registerC options w
      = (Abrupt TypeError,
         mkWorld (webhookRegistry w) n2
           (trace w
              ++ [QuerySent (shop options) (accessToken options)
                    (buildCheckQuery (topic options));
                  QuerySent (shop options) (accessToken options)
                    (buildQuery (topic options) (targetAddress Context options)
                       (methodOf options) (existingId checkBody))])%list)).
Proof.
  intros Hq Hcast Hnot Hm. split.
  - intros m webhookId. rewrite isSuccess_node. split.
    + destruct result; split; intros H;
        try discriminate H; try (destruct H as [H|H]; discriminate H);
        try reflexivity; [right|left]; reflexivity.
    + intros Hn Hu. destruct result; try (eexists; reflexivity);
        [contradiction Hu|contradiction Hn]; reflexivity.
  - intros Hres. rewrite register_run. cbv zeta.
    rewrite Hq, Hcast, Hnot, Hm, isSuccess_node, <- app_assoc.
    destruct Hres as [->| ->]; reflexivity.
Qed.

(** X12.  Registering again with the same options is idempotent on the
    store: when two calls of [register] with the same options both report
    success, the store after the second is the store after the first. *)
Theorem register_twice_same_options
    (options : RegisterOptions Handler) (w : W) :
  reportsSuccess (fst (registerC options w)) = true ->
  reportsSuccess (fst (registerC options (snd (registerC options w)))) = true ->
  webhookRegistry (snd (registerC options (snd (registerC options w))))
  = webhookRegistry (snd (registerC options w)).
Proof.
  intros H1 H2.
  rewrite (register_registry_on_success options _ H2).
  rewrite (register_registry_on_success options w H1).
  apply upsert_idempotent.
Qed.

End RegistryProperties.

(* ================================================================== *)
(** ** Runs of the concrete installation                               *)
(* ================================================================== *)

(** C1, as stated, fails: registered under [orders/create], the handler is
    stored under that very string, while [process] looks for
    [ORDERS_CREATE].  Registration succeeds, the signature is the right
    one, and yet the answer is "forbidden" and no handler is invoked. *)
Lemma slash_topic_registered_not_dispatched :
  reportsSuccess
    (fst (Demo.register (Demo.options "orders/create" "/cb" 7)
            (Demo.emptyWorld Demo.creationAnswers))) = true
  /\ fst (Demo.process
            (Demo.request Demo.signatureId1 "orders/create" "shop.example.com"
               bodyId1)
            (snd (Demo.register (Demo.options "orders/create" "/cb" 7)
                    (Demo.emptyWorld Demo.creationAnswers))))
     = Normal (mkProcessReturn Forbidden [])
  /\ invocations
       (trace
          (snd (Demo.process
                  (Demo.request Demo.signatureId1 "orders/create"
                     "shop.example.com" bodyId1)
                  (snd (Demo.register (Demo.options "orders/create" "/cb" 7)
                          (Demo.emptyWorld Demo.creationAnswers))))))
     = [].
Proof. vm_compute. repeat split. Qed.

Lemma register_then_process_dispatches_witness :
  exists w1 w2,
    Demo.register (Demo.options "ORDERS_CREATE" "/cb" 7)
      (Demo.emptyWorld Demo.creationAnswers)
    = (Normal
         (mkRegisterReturn true (Demo.mutationOk "webhookSubscriptionCreate")),
       w1)
    /\ Demo.process
         (Demo.request Demo.signatureId1 "orders/create" "shop.example.com"
            bodyId1) w1
       = (Normal (mkProcessReturn Ok []), w2)
    /\ trace w2
       = (trace w1
            ++ [HmacComputed "secret" (toString_utf8 bodyId1);
                Compared Demo.signatureId1 Demo.signatureId1;
                HandlerInvoked 7 "ORDERS_CREATE" "shop.example.com" bodyId1])%list.
Proof.
  apply (register_then_process_dispatches Demo.Handler Demo.Network
           Demo.client_query asciiToUpperCase asciiToLowerCase
           Demo.ShopifyHeader Demo.Context
           (Demo.options "ORDERS_CREATE" "/cb" 7)
           (Demo.emptyWorld Demo.creationAnswers)
           Demo.noSubscription
           [inr (Demo.mutationOk "webhookSubscriptionCreate")]
           (mkCheckResponse (mkData (mkSubscriptions [])))
           (Demo.mutationOk "webhookSubscriptionCreate") []
           (Demo.request Demo.signatureId1 "orders/create" "shop.example.com"
              bodyId1)
           Demo.signatureId1);
    vm_compute; reflexivity.
Defined.

(** C2, as stated, fails on a body that is not well-formed UTF-8.  For the
    one-byte body FF the signature over the bytes EF BF BD is accepted,
    though it is not the reference signature over the body; and the
    reference signature over the body is turned down. *)
Lemma signature_over_raw_bytes_not_the_accepted_one :
  fst (Demo.process
         (Demo.request (referenceSignature "secret" Demo.replacementBytes)
            "orders/create" "shop.example.com" Demo.strayByte)
         (Demo.registered "ORDERS_CREATE"))
  = Normal (mkProcessReturn Ok [])
  /\ referenceSignature "secret" Demo.replacementBytes
     <> referenceSignature "secret" Demo.strayByte
  /\ fst (Demo.process
            (Demo.request (referenceSignature "secret" Demo.strayByte)
               "orders/create" "shop.example.com" Demo.strayByte)
            (Demo.registered "ORDERS_CREATE"))
     = Normal (mkProcessReturn Forbidden []).
Proof.
  split; [vm_compute; reflexivity|].
  split; [|vm_compute; reflexivity].
  apply String.eqb_neq. vm_compute. reflexivity.
Qed.

Lemma process_accepts_signature_of_decoded_body_witness :
  fst (Demo.process
         (Demo.request Demo.signatureId1 "orders/create" "shop.example.com"
            bodyId1)
         (Demo.registered "ORDERS_CREATE"))
  = Normal (mkProcessReturn Ok [])
  <-> Demo.signatureId1 = referenceSignature "secret" bodyId1.
Proof.
  apply (process_accepts_signature_of_decoded_body Demo.Handler Demo.Network
           asciiToUpperCase asciiToLowerCase Demo.ShopifyHeader Demo.Context
           (Demo.request Demo.signatureId1 "orders/create" "shop.example.com"
              bodyId1)
           (Demo.registered "ORDERS_CREATE")
           Demo.signatureId1 "orders/create" "shop.example.com"
           (mkEntry "/cb" "ORDERS_CREATE" 7)).
  - vm_compute; reflexivity.
  - reflexivity.
  - reflexivity.
  - vm_compute; reflexivity.
  - apply ascii_wellFormed. repeat constructor.
Defined.

Lemma registry_one_entry_per_topic_witness :
  NoDup (map entry_topic
           (webhookRegistry (Demo.emptyWorld (Demo.creationAnswers
                                               ++ Demo.updateAnswers)%list)))
  /\ filter (fun e => entry_topic e =? "ORDERS_CREATE")
       (webhookRegistry
          (snd (Demo.register (Demo.options "ORDERS_CREATE" "/b" 2)
                  (snd (Demo.register (Demo.options "ORDERS_CREATE" "/a" 1)
                          (Demo.emptyWorld (Demo.creationAnswers
                                              ++ Demo.updateAnswers)%list))))))
     = [mkEntry "/b" "ORDERS_CREATE" 2].
Proof.
  destruct (registry_one_entry_per_topic Demo.Handler Demo.Network
              Demo.client_query Demo.Context
              (Demo.emptyWorld (Demo.creationAnswers ++ Demo.updateAnswers)%list)
              (reach_empty Demo.client_query Demo.Context
                 (Demo.emptyWorld (Demo.creationAnswers ++ Demo.updateAnswers)%list)
                 eq_refl)) as [Hinv Htwice].
  split; [exact Hinv|].
  apply (Htwice (Demo.options "ORDERS_CREATE" "/a" 1)
           (Demo.options "ORDERS_CREATE" "/b" 2)
           (mkRegisterReturn true (Demo.mutationOk "webhookSubscriptionCreate"))
           (mkRegisterReturn true (Demo.mutationOk "webhookSubscriptionUpdate"))
           (snd (Demo.register (Demo.options "ORDERS_CREATE" "/a" 1)
                   (Demo.emptyWorld (Demo.creationAnswers
                                       ++ Demo.updateAnswers)%list))));
    vm_compute; reflexivity.
Defined.

Lemma process_missing_header_fails_first_witness :
  exists missing,
    Demo.process
      (mkProcessOptions
         [("x-shopify-hmac-sha256", "c2lnbmF0dXJl");
          ("x-shopify-shop-domain", "shop.example.com")]
         bodyId1)
      (Demo.registered "ORDERS_CREATE")
    = (Abrupt (InvalidWebhookError (missingMessage missing)),
       Demo.registered "ORDERS_CREATE")
    /\ In "X-Shopify-Topic" missing.
Proof.
  destruct (process_missing_header_fails_first Demo.Handler Demo.Network
              asciiToUpperCase asciiToLowerCase Demo.ShopifyHeader Demo.Context
              (mkProcessOptions
                 [("x-shopify-hmac-sha256", "c2lnbmF0dXJl");
                  ("x-shopify-shop-domain", "shop.example.com")]
                 bodyId1)
              (Demo.registered "ORDERS_CREATE"))
    as (missing & Hrun & _ & _ & Htopic & _).
  - right; left.
    intros k v [E|[E|[]]]; injection E as Hk _; subst k;
      apply String.eqb_neq; reflexivity.
  - exists missing. split; [exact Hrun|]. apply Htopic.
    intros k v [E|[E|[]]]; injection E as Hk _; subst k;
      apply String.eqb_neq; reflexivity.
Defined.

(** C5, as stated, fails on a body that is not well-formed UTF-8.  For the
    one-byte body FF the three headers are present and the provided
    signature, the one over the bytes EF BF BD, is not the HMAC of the
    body; yet the answer is "ok" and the handler is invoked. *)
Lemma mismatch_with_body_hmac_still_dispatched :
  readHeaders asciiToLowerCase Demo.ShopifyHeader
    (headers
       (Demo.request (referenceSignature "secret" Demo.replacementBytes)
          "orders/create" "shop.example.com" Demo.strayByte))
  = (Some (referenceSignature "secret" Demo.replacementBytes),
     Some "orders/create", Some "shop.example.com")
  /\ referenceSignature "secret" Demo.replacementBytes
     <> referenceSignature "secret" Demo.strayByte
  /\ fst (Demo.process
            (Demo.request (referenceSignature "secret" Demo.replacementBytes)
               "orders/create" "shop.example.com" Demo.strayByte)
            (Demo.registered "ORDERS_CREATE"))
     = Normal (mkProcessReturn Ok [])
  /\ invocations
       (trace
          (snd (Demo.process
                  (Demo.request
                     (referenceSignature "secret" Demo.replacementBytes)
                     "orders/create" "shop.example.com" Demo.strayByte)
                  (Demo.registered "ORDERS_CREATE"))))
     = [(7, "ORDERS_CREATE", "shop.example.com", Demo.strayByte)].
Proof.
  split; [vm_compute; reflexivity|].
  split; [apply String.eqb_neq; vm_compute; reflexivity|].
  split; vm_compute; reflexivity.
Qed.

Lemma process_signature_mismatch_forbidden_witness :
  exists w',
    Demo.process
      (Demo.request "AAAA" "orders/create" "shop.example.com" bodyId1)
      (Demo.registered "ORDERS_CREATE")
    = (Normal (mkProcessReturn Forbidden []), w')
    /\ webhookRegistry w' = webhookRegistry (Demo.registered "ORDERS_CREATE")
    /\ invocations (trace w') = [].
Proof.
  destruct (process_signature_mismatch_forbidden Demo.Handler Demo.Network
              asciiToUpperCase asciiToLowerCase Demo.ShopifyHeader Demo.Context
              (Demo.request "AAAA" "orders/create" "shop.example.com" bodyId1)
              (Demo.registered "ORDERS_CREATE")
              "AAAA" "orders/create" "shop.example.com")
    as (w' & Hrun & Hreg & Htrace & _).
  - vm_compute; reflexivity.
  - reflexivity.
  - reflexivity.
  - reflexivity.
  - right. split.
    + apply ascii_wellFormed. repeat constructor.
    + apply String.eqb_neq. vm_compute. reflexivity.
  - exists w'. split; [exact Hrun|]. split; [exact Hreg|].
    rewrite Htrace. reflexivity.
Defined.

Lemma process_unknown_topic_forbidden_witness :
  exists w',
    Demo.process
      (Demo.request Demo.signatureId1 "orders/create" "shop.example.com"
         bodyId1)
      (Demo.registered "PRODUCTS_CREATE")
    = (Normal (mkProcessReturn Forbidden []), w')
    /\ invocations (trace w') = [].
Proof.
  destruct (process_unknown_topic_forbidden Demo.Handler Demo.Network
              asciiToUpperCase asciiToLowerCase Demo.ShopifyHeader Demo.Context
              (Demo.request Demo.signatureId1 "orders/create"
                 "shop.example.com" bodyId1)
              (Demo.registered "PRODUCTS_CREATE")
              Demo.signatureId1 "orders/create" "shop.example.com")
    as (w' & Hrun & _ & Htrace & _).
  - vm_compute; reflexivity.
  - vm_compute; reflexivity.
  - reflexivity.
  - reflexivity.
  - vm_compute; reflexivity.
  - intros e [E|[]]. subst e. apply String.eqb_neq. reflexivity.
  - exists w'. split; [exact Hrun|]. rewrite Htrace. reflexivity.
Defined.

Lemma register_skips_mutation_when_registered_witness :
  Demo.register (Demo.options "ORDERS_CREATE" "/cb" 7)
    (Demo.emptyWorld [inr (Demo.oneSubscription "gid-1" "https://host/cb")])
  = (Normal (mkRegisterReturn true (JObject [])),
     mkWorld [mkEntry "/cb" "ORDERS_CREATE" 7] []
       [QuerySent "shop.example.com" "token" (buildCheckQuery "ORDERS_CREATE")]).
Proof.
  apply (register_skips_mutation_when_registered Demo.Handler Demo.Network
           Demo.client_query Demo.Context
           (Demo.options "ORDERS_CREATE" "/cb" 7)
           (Demo.emptyWorld
              [inr (Demo.oneSubscription "gid-1" "https://host/cb")])
           (Demo.oneSubscription "gid-1" "https://host/cb") []
           (mkCheckResponse
              (mkData
                 (mkSubscriptions
                    [mkEdge (mkNode "gid-1" "https://host/cb")])))
           (mkEdge (mkNode "gid-1" "https://host/cb")) []);
    reflexivity.
Defined.

Lemma register_store_changes_only_on_success_witness :
  Demo.register (Demo.options "ORDERS_CREATE" "/cb" 7)
    (mkWorld [mkEntry "/old" "ORDERS_CREATE" 3] [inl "503"] [])
  = (Abrupt (RequestError "503"),
     mkWorld [mkEntry "/old" "ORDERS_CREATE" 3] []
       [QuerySent "shop.example.com" "token" (buildCheckQuery "ORDERS_CREATE")])
  /\ webhookRegistry
       (snd (Demo.register (Demo.options "ORDERS_CREATE" "/cb" 7)
               (mkWorld [mkEntry "/old" "ORDERS_CREATE" 3]
                  [inr Demo.noSubscription;
                   inr (Demo.mutationRefused "webhookSubscriptionCreate")]
                  [])))
     = [mkEntry "/old" "ORDERS_CREATE" 3].
Proof.
  split.
  - apply (proj1 (proj2
      (register_store_changes_only_on_success Demo.Handler Demo.Network
         Demo.client_query Demo.Context
         (Demo.options "ORDERS_CREATE" "/cb" 7)
         (mkWorld [mkEntry "/old" "ORDERS_CREATE" 3] [inl "503"] [])))).
    reflexivity.
  - apply (proj1
      (register_store_changes_only_on_success Demo.Handler Demo.Network
         Demo.client_query Demo.Context
         (Demo.options "ORDERS_CREATE" "/cb" 7)
         (mkWorld [mkEntry "/old" "ORDERS_CREATE" 3]
            [inr Demo.noSubscription;
             inr (Demo.mutationRefused "webhookSubscriptionCreate")]
            []))).
    vm_compute. reflexivity.
Defined.

Lemma mutation_and_success_keyed_alike_witness :
  buildQuery "ORDERS_CREATE" "https://host/cb" Http None
  = mutationText "webhookSubscriptionCreate" "topic: ORDERS_CREATE"
      "callbackUrl" "https://host/cb"
  /\ buildQuery "ORDERS_CREATE" "arn:aws:events:bus" EventBridge (Some "gid-1")
     = mutationText "eventBridgeWebhookSubscriptionUpdate"
         ("id: " ++ dquote ++ "gid-1" ++ dquote) "arn" "arn:aws:events:bus"
  /\ (isSuccess (Demo.mutationOk "webhookSubscriptionUpdate") Http
        (Some "gid-1") = Normal true
      <-> hasSubscriptionNode (Demo.mutationOk "webhookSubscriptionUpdate")
            "webhookSubscriptionUpdate" = true).
Proof.
  split.
  - apply (proj1
      (mutation_and_success_keyed_alike Demo.Handler Demo.Network
         Demo.client_query Demo.Context
         "ORDERS_CREATE" "https://host/cb" Http "gid-1"
         ltac:(discriminate))).
  - split.
    + apply (proj1 (proj2
        (mutation_and_success_keyed_alike Demo.Handler Demo.Network
           Demo.client_query Demo.Context
           "ORDERS_CREATE" "arn:aws:events:bus" EventBridge "gid-1"
           ltac:(discriminate)))).
    + apply (proj2 (proj1 (proj2 (proj2
        (mutation_and_success_keyed_alike Demo.Handler Demo.Network
           Demo.client_query Demo.Context
           "ORDERS_CREATE" "https://host/cb" Http "gid-1"
           ltac:(discriminate))))
        (Demo.mutationOk "webhookSubscriptionUpdate"))).
Defined.

(* ================================================================== *)
(** ** Further runs of the concrete installation                       *)
(* ================================================================== *)

Lemma demo_distinct : distinctNames asciiToLowerCase Demo.ShopifyHeader.
Proof. repeat split; apply String.eqb_neq; reflexivity. Qed.

Lemma demo_request_carries (sig t d : string) (b : Buffer) :
  carries asciiToLowerCase (Hmac Demo.ShopifyHeader)
    (headers (Demo.request sig t d b)) sig
  /\ carries asciiToLowerCase (Topic Demo.ShopifyHeader)
       (headers (Demo.request sig t d b)) t
  /\ carries asciiToLowerCase (Domain Demo.ShopifyHeader)
       (headers (Demo.request sig t d b)) d.
Proof.
  split; [|split].
  - exists [("content-type", "application/json")], "x-shopify-hmac-sha256",
      [("X-Shopify-Topic", t); ("X-SHOPIFY-SHOP-DOMAIN", d)].
    split; [reflexivity|]. split; [discriminate|]. split; [reflexivity|].
    intros k v [E|[E|[]]]; injection E as Hk _; subst k;
      apply String.eqb_neq; reflexivity.
  - exists [("content-type", "application/json"); ("x-shopify-hmac-sha256", sig)],
      "X-Shopify-Topic", [("X-SHOPIFY-SHOP-DOMAIN", d)].
    split; [reflexivity|]. split; [discriminate|]. split; [reflexivity|].
    intros k v [E|[]]; injection E as Hk _; subst k;
      apply String.eqb_neq; reflexivity.
  - exists [("content-type", "application/json"); ("x-shopify-hmac-sha256", sig);
            ("X-Shopify-Topic", t)],
      "X-SHOPIFY-SHOP-DOMAIN", [].
    split; [reflexivity|]. split; [discriminate|]. split; [reflexivity|].
    intros k v [].
Qed.

Lemma process_dispatches_to_first_entry_witness :
  Demo.process
    (Demo.request Demo.signatureId1 "orders/create" "shop.example.com" bodyId1)
    (mkWorld
       [mkEntry "/p" "PRODUCTS_CREATE" 1; mkEntry "/cb" "ORDERS_CREATE" 7;
        mkEntry "/dup" "ORDERS_CREATE" 9] [] [])
  = (Normal (mkProcessReturn Ok []),
     mkWorld
       [mkEntry "/p" "PRODUCTS_CREATE" 1; mkEntry "/cb" "ORDERS_CREATE" 7;
        mkEntry "/dup" "ORDERS_CREATE" 9] []
       [HmacComputed "secret" (toString_utf8 bodyId1);
        Compared Demo.signatureId1 Demo.signatureId1;
        HandlerInvoked 7 "ORDERS_CREATE" "shop.example.com" bodyId1]).
Proof.
  destruct (demo_request_carries Demo.signatureId1 "orders/create"
              "shop.example.com" bodyId1) as (Cs & Ct & Cd).
  apply (process_dispatches_to_first_entry Demo.Handler Demo.Network
           asciiToUpperCase asciiToLowerCase Demo.ShopifyHeader Demo.Context
           (Demo.request Demo.signatureId1 "orders/create" "shop.example.com"
              bodyId1)
           (mkWorld
              [mkEntry "/p" "PRODUCTS_CREATE" 1; mkEntry "/cb" "ORDERS_CREATE" 7;
               mkEntry "/dup" "ORDERS_CREATE" 9] [] [])
           Demo.signatureId1 "orders/create" "shop.example.com"
           [mkEntry "/p" "PRODUCTS_CREATE" 1] [mkEntry "/dup" "ORDERS_CREATE" 9]
           (mkEntry "/cb" "ORDERS_CREATE" 7)
           demo_distinct Cs Ct Cd).
  - discriminate.
  - discriminate.
  - vm_compute; reflexivity.
  - reflexivity.
  - reflexivity.
  - intros e' [<-|[]]. apply String.eqb_neq. reflexivity.
Defined.

Lemma process_dispatch_requires_signature_witness :
  exists k,
    In (k, generatedHash "secret" bodyId1)
      (headers
         (Demo.request Demo.signatureId1 "orders/create" "shop.example.com"
            bodyId1))
    /\ k <> EmptyString
    /\ asciiToLowerCase k = asciiToLowerCase "X-Shopify-Hmac-Sha256".
Proof.
  apply (process_dispatch_requires_signature Demo.Handler Demo.Network
           asciiToUpperCase asciiToLowerCase Demo.ShopifyHeader Demo.Context
           (Demo.request Demo.signatureId1 "orders/create" "shop.example.com"
              bodyId1)
           (Demo.registered "ORDERS_CREATE")).
  left. exists (mkProcessReturn Ok []). split; vm_compute; reflexivity.
Defined.

Lemma process_empty_value_is_missing_witness :
  exists missing,
    Demo.process
      (Demo.request "c2lnbmF0dXJl" EmptyString "shop.example.com" bodyId1)
      (Demo.registered "ORDERS_CREATE")
    = (Abrupt (InvalidWebhookError (missingMessage missing)),
       Demo.registered "ORDERS_CREATE")
    /\ In "X-Shopify-Topic" missing.
Proof.
  destruct (demo_request_carries "c2lnbmF0dXJl" EmptyString "shop.example.com"
              bodyId1) as (_ & Ct & _).
  destruct (process_empty_value_is_missing Demo.Handler Demo.Network
              asciiToUpperCase asciiToLowerCase Demo.ShopifyHeader Demo.Context
              (Demo.request "c2lnbmF0dXJl" EmptyString "shop.example.com"
                 bodyId1)
              (Demo.registered "ORDERS_CREATE")
              demo_distinct (or_intror (or_introl Ct)))
    as (missing & Hrun & _ & Htopic & _).
  exists missing. split; [exact Hrun|exact (Htopic Ct)].
Defined.

Lemma process_invokes_slash_free_entries_witness :
  In (7, "ORDERS_CREATE", "shop.example.com", bodyId1)
    (invocations (trace (Demo.registered "ORDERS_CREATE")))
  \/ (hasSlash "ORDERS_CREATE" = false
      /\ bodyId1 = bodyId1
      /\ exists e, In e (webhookRegistry (Demo.registered "ORDERS_CREATE"))
                   /\ entry_topic e = "ORDERS_CREATE"
                   /\ entry_webhookHandler e = 7).
Proof.
  apply (process_invokes_slash_free_entries Demo.Handler Demo.Network
           asciiToUpperCase asciiToLowerCase Demo.ShopifyHeader Demo.Context
           (Demo.request Demo.signatureId1 "orders/create" "shop.example.com"
              bodyId1)
           (Demo.registered "ORDERS_CREATE")
           7 "ORDERS_CREATE" "shop.example.com" bodyId1).
  vm_compute. left. reflexivity.
Defined.

Lemma register_leaves_other_topics_witness :
  filter (fun e => entry_topic e =? "PRODUCTS_CREATE")
    (webhookRegistry
       (snd (Demo.register (Demo.options "ORDERS_CREATE" "/new" 8)
               (mkWorld
                  [mkEntry "/p" "PRODUCTS_CREATE" 1;
                   mkEntry "/cb" "ORDERS_CREATE" 7]
                  Demo.updateAnswers []))))
  = filter (fun e => entry_topic e =? "PRODUCTS_CREATE")
      [mkEntry "/p" "PRODUCTS_CREATE" 1; mkEntry "/cb" "ORDERS_CREATE" 7].
Proof.
  apply (register_leaves_other_topics Demo.Handler Demo.Network
           Demo.client_query Demo.Context
           (Demo.options "ORDERS_CREATE" "/new" 8)
           (mkWorld
              [mkEntry "/p" "PRODUCTS_CREATE" 1; mkEntry "/cb" "ORDERS_CREATE" 7]
              Demo.updateAnswers [])
           "PRODUCTS_CREATE").
  discriminate.
Defined.

Lemma register_then_isWebhookPath_witness :
  fst (Demo.isWebhookPath "/cb"
         (snd (Demo.register (Demo.options "ORDERS_CREATE" "/new" 8)
                 (mkWorld
                    [mkEntry "/p" "PRODUCTS_CREATE" 1;
                     mkEntry "/cb" "ORDERS_CREATE" 7]
                    Demo.updateAnswers []))))
  = Normal true
  <-> "/cb" = "/new"
      \/ exists e,
           In e [mkEntry "/p" "PRODUCTS_CREATE" 1;
                 mkEntry "/cb" "ORDERS_CREATE" 7]
           /\ entry_topic e <> "ORDERS_CREATE" /\ entry_path e = "/cb".
Proof.
  apply (register_then_isWebhookPath Demo.Handler Demo.Network
           Demo.client_query Demo.Context
           (Demo.options "ORDERS_CREATE" "/new" 8)
           (mkWorld
              [mkEntry "/p" "PRODUCTS_CREATE" 1; mkEntry "/cb" "ORDERS_CREATE" 7]
              Demo.updateAnswers [])
           "/cb").
  vm_compute. reflexivity.
Defined.

Lemma register_then_process_round_trip_witness :
  fst (Demo.process
         (Demo.request Demo.signatureId1 "orders/create" "shop.example.com"
            bodyId1)
         (snd (Demo.register (Demo.options "ORDERS_CREATE" "/new" 8)
                 (mkWorld [mkEntry "/cb" "ORDERS_CREATE" 7]
                    Demo.updateAnswers []))))
  = Normal (mkProcessReturn Ok [])
  /\ invocations
       (trace
          (snd (Demo.process
                  (Demo.request Demo.signatureId1 "orders/create"
                     "shop.example.com" bodyId1)
                  (snd (Demo.register (Demo.options "ORDERS_CREATE" "/new" 8)
                          (mkWorld [mkEntry "/cb" "ORDERS_CREATE" 7]
                             Demo.updateAnswers []))))))
     = (invocations
          (trace
             (snd (Demo.register (Demo.options "ORDERS_CREATE" "/new" 8)
                     (mkWorld [mkEntry "/cb" "ORDERS_CREATE" 7]
                        Demo.updateAnswers []))))
          ++ [(8, "ORDERS_CREATE", "shop.example.com", bodyId1)])%list.
Proof.
  destruct (demo_request_carries Demo.signatureId1 "orders/create"
              "shop.example.com" bodyId1) as (Cs & Ct & Cd).
  apply (register_then_process_round_trip Demo.Handler Demo.Network
           Demo.client_query asciiToUpperCase asciiToLowerCase
           Demo.ShopifyHeader Demo.Context
           (Demo.options "ORDERS_CREATE" "/new" 8)
           (mkWorld [mkEntry "/cb" "ORDERS_CREATE" 7] Demo.updateAnswers [])
           (Demo.request Demo.signatureId1 "orders/create" "shop.example.com"
              bodyId1)
           Demo.signatureId1 "orders/create" "shop.example.com").
  - vm_compute; reflexivity.
  - exact demo_distinct.
  - exact Cs.
  - exact Ct.
  - exact Cd.
  - discriminate.
  - discriminate.
  - vm_compute; reflexivity.
  - reflexivity.
Defined.

Lemma register_create_or_update_witness :
  trace
    (snd (Demo.register (Demo.options "ORDERS_CREATE" "/new" 8)
            (Demo.emptyWorld Demo.updateAnswers)))
  = [QuerySent "shop.example.com" "token" (buildCheckQuery "ORDERS_CREATE");
     QuerySent "shop.example.com" "token"
       (mutationText "webhookSubscriptionUpdate"
          ("id: " ++ dquote ++ "gid-1" ++ dquote) "callbackUrl"
          "https://host/new")].
Proof.
  destruct (register_create_or_update Demo.Handler Demo.Network
              Demo.client_query Demo.Context
              (Demo.options "ORDERS_CREATE" "/new" 8)
              (Demo.emptyWorld Demo.updateAnswers)
              (Demo.oneSubscription "gid-1" "https://host/a")
              [inr (Demo.mutationOk "webhookSubscriptionUpdate")]
              (mkCheckResponse
                 (mkData
                    (mkSubscriptions
                       [mkEdge (mkNode "gid-1" "https://host/a")])))
              eq_refl eq_refl eq_refl) as (_ & Hupdate & _).
  apply (Hupdate (mkEdge (mkNode "gid-1" "https://host/a")) [] eq_refl).
  discriminate.
Defined.

Lemma register_null_response_raises_witness :
  Demo.register (Demo.options "ORDERS_CREATE" "/cb" 7)
    (mkWorld [mkEntry "/old" "ORDERS_CREATE" 3]
       [inr Demo.noSubscription; inr JNull] [])
  = (Abrupt TypeError,
     mkWorld [mkEntry "/old" "ORDERS_CREATE" 3] []
       [QuerySent "shop.example.com" "token" (buildCheckQuery "ORDERS_CREATE");
        QuerySent "shop.example.com" "token"
          (buildQuery "ORDERS_CREATE" "https://host/cb" Http None)]).
Proof.
  apply (proj2
    (register_null_response_raises Demo.Handler Demo.Network
       Demo.client_query Demo.Context
       (Demo.options "ORDERS_CREATE" "/cb" 7)
       (mkWorld [mkEntry "/old" "ORDERS_CREATE" 3]
          [inr Demo.noSubscription; inr JNull] [])
       Demo.noSubscription [inr JNull]
       (mkCheckResponse (mkData (mkSubscriptions [])))
       JNull [] eq_refl eq_refl eq_refl eq_refl)).
  left. reflexivity.
Defined.

Lemma register_twice_same_options_witness :
  webhookRegistry
    (snd (Demo.register (Demo.options "ORDERS_CREATE" "/cb" 7)
            (snd (Demo.register (Demo.options "ORDERS_CREATE" "/cb" 7)
                    (mkWorld [mkEntry "/p" "PRODUCTS_CREATE" 1]
                       (Demo.creationAnswers
                          ++ [inr (Demo.oneSubscription "gid-1"
                                     "https://host/cb")])%list
                       [])))))
  = webhookRegistry
      (snd (Demo.register (Demo.options "ORDERS_CREATE" "/cb" 7)
              (mkWorld [mkEntry "/p" "PRODUCTS_CREATE" 1]
                 (Demo.creationAnswers
                    ++ [inr (Demo.oneSubscription "gid-1" "https://host/cb")])%list
                 []))).
Proof.
  apply (register_twice_same_options Demo.Handler Demo.Network
           Demo.client_query Demo.Context
           (Demo.options "ORDERS_CREATE" "/cb" 7)
           (mkWorld [mkEntry "/p" "PRODUCTS_CREATE" 1]
              (Demo.creationAnswers
                 ++ [inr (Demo.oneSubscription "gid-1" "https://host/cb")])%list
              []));
    vm_compute; reflexivity.
Defined.
